(** * Finance agent: tools, indicators and request orchestration

    A shallow embedding of [app/tools.py], [app/agent.py] and the request
    handler of [app/main.py], with the properties their specification states.

    Python values are modelled as follows.
    - A [str] is a [string] of UTF-8 bytes, an [int] is a [Z].
    - A [dict] is an association list in insertion order ([Py.dict]): writing
      an existing key keeps its position and replaces its value.
    - A [try]/[except] body is a computation in the exception monad [Py.Exc];
      [Raise e] carries the text [str(e)].
    - A pandas frame is a row count and a [dict] of numeric columns; a cell is
      [option Q], [None] standing for NaN/null.  Floating-point numbers are
      idealised as exact rationals; a column of integers of 64 bits is summed
      with wrap-around.
    - The data provider, the serializer and the language-model chains are
      outside the repository: they are [Variable]s of the sections below. *)

From Stdlib Require Import List String Ascii Bool ZArith QArith Qround Qabs.
From Stdlib Require Import Lia Lqa.
From Stdlib Require Import DecimalString DecimalZ.
Import ListNotations.
#[global] Set Warnings "-notation-for-abbreviation".
Open Scope string_scope.

(* ================================================================== *)
(** ** Python values *)

Module Py.

(** The outcome of an expression that may raise: [Raise e] carries [str(e)]. *)
Inductive Exc (A : Type) : Type :=
| Raise (e : string)
| Ret (a : A).
Arguments Raise {A} e.
Arguments Ret {A} a.

Definition bind {A B} (m : Exc A) (k : A -> Exc B) : Exc B :=
  match m with
  | Raise e => Raise e
  | Ret a => k a
  end.

(** [try: body  except: handler] with a bare or [Exception] clause. *)
Definition try_except {A} (body : Exc A) (handler : string -> A) : A :=
  match body with
  | Raise e => handler e
  | Ret a => a
  end.

Notation "x <- m ;; k" := (bind m (fun x => k))
  (at level 61, m at next level, right associativity).

(** [x in l] for a list of strings. *)
Definition mem (x : string) (l : list string) : bool :=
  existsb (String.eqb x) l.

(** [sep.join(l)]. *)
Definition join (sep : string) (l : list string) : string :=
  String.concat sep l.

(** [str(n)] for an [int]. *)
Definition str_of_int (n : Z) : string :=
  NilEmpty.string_of_int (Z.to_int n).

(** The newline character of ["\n"]. *)
Definition nl : string := String (ascii_of_nat 10) EmptyString.

(** A [dict] with [str] keys, in insertion order. *)
Definition dict (V : Type) : Type := list (string * V).

(** [d[k] = v]. *)
Fixpoint dict_set {V} (k : string) (v : V) (d : dict V) : dict V :=
  match d with
  | [] => [(k, v)]
  | (k', v') :: d' =>
      if String.eqb k' k then (k', v) :: d'
      else (k', v') :: dict_set k v d'
  end.

(** [d.get(k)]. *)
Fixpoint dict_get {V} (k : string) (d : dict V) : option V :=
  match d with
  | [] => None
  | (k', v') :: d' => if String.eqb k' k then Some v' else dict_get k d'
  end.

(** [list(d.keys())]. *)
Definition keys {V} (d : dict V) : list string := map fst d.

(** The value stored for a symbol by a tool: a [str] or an [int]. *)
Inductive Val : Type :=
| VStr (s : string)
| VInt (n : Z).

(** The distinct elements of a list, each at the place of its first
    occurrence: the key order of a [dict] filled by a loop over the list. *)
Fixpoint first_occurrences (l : list string) : list string :=
  match l with
  | [] => []
  | x :: l' =>
      x :: filter (fun y => negb (String.eqb y x)) (first_occurrences l')
  end.

End Py.
Import Py.

(* ================================================================== *)
(** ** pandas frames *)

Module Pandas.

(** A numeric cell; [None] is NaN. *)
Definition Cell : Type := option Q.
Definition Series : Type := list Cell.

Record DataFrame : Type := mkFrame {
  index_len : nat;              (* number of rows *)
  columns : dict Series         (* named columns, in column order *)
}.

(** [df.empty]: true when either axis has length 0. *)
Definition empty (df : DataFrame) : bool :=
  (index_len df =? 0)%nat || match columns df with [] => true | _ => false end.

(** [name in df.columns]. *)
Definition has_column (name : string) (df : DataFrame) : bool :=
  mem name (keys (columns df)).

(** [df[name]]; a missing column raises [KeyError]. *)
Definition getitem (df : DataFrame) (name : string) : Exc Series :=
  match dict_get name (columns df) with
  | Some s => Ret s
  | None => Raise ("'" ++ name ++ "'")
  end.

(** [df[name] = s]. *)
Definition setitem (df : DataFrame) (name : string) (s : Series) : DataFrame :=
  mkFrame (index_len df) (dict_set name s (columns df)).

(** [df[names]] for a list of names: the named columns in the order asked;
    a missing one raises [KeyError]. *)
Fixpoint select_columns (cols : dict Series) (names : list string)
  : Exc (dict Series) :=
  match names with
  | [] => Ret []
  | n :: ns =>
      match dict_get n cols with
      | None => Raise ("'" ++ n ++ "' not in index")
      | Some s => rest <- select_columns cols ns ;; Ret ((n, s) :: rest)
      end
  end.

Definition getitems (df : DataFrame) (names : list string) : Exc DataFrame :=
  cols <- select_columns (columns df) names ;;
  Ret (mkFrame (index_len df) cols).

(** The range of a signed integer of 64 bits, and the integer of that range
    that an integer is congruent to modulo [2^64]. *)
Definition int64_min : Z := - 2 ^ 63.
Definition int64_max : Z := 2 ^ 63 - 1.
Definition wrap_int64 (z : Z) : Z := (z + 2 ^ 63) mod 2 ^ 64 - 2 ^ 63.

(** The integers of a column that holds nothing but integers of 64 bits.
    pandas keeps such a column with the dtype int64; a NaN, a fraction or a
    number out of the range makes the column float64. *)
Fixpoint int64_values (s : Series) : option (list Z) :=
  match s with
  | [] => Some []
  | None :: _ => None
  | Some q :: s' =>
      if Pos.eqb (Qden q) 1
         && (int64_min <=? Qnum q)%Z && (Qnum q <=? int64_max)%Z
      then option_map (cons (Qnum q)) (int64_values s')
      else None
  end.

(** The sum of an int64 column: every addition wraps around. *)
Definition int64_sum (l : list Z) : Z :=
  fold_left (fun acc z => wrap_int64 (acc + z)) l 0%Z.

(** The sum of a float64 column: NaN cells are skipped. *)
Fixpoint float_sum (s : Series) : Q :=
  match s with
  | [] => 0
  | None :: s' => float_sum s'
  | Some q :: s' => q + float_sum s'
  end.

(** [s.sum()]. *)
Definition series_sum (s : Series) : Q :=
  match int64_values s with
  | Some l => inject_Z (int64_sum l)
  | None => float_sum s
  end.

(** [int(x)] for a finite number: truncation toward zero. *)
Definition int_of (q : Q) : Z := Z.quot (Qnum q) (Zpos (Qden q)).

(** Rounding of a rational to the nearest integer, ties to the even one
    (the rule of [numpy.round]). *)
Definition round_half_even (q : Q) : Z :=
  let f := Qfloor q in
  match Qcompare (q - inject_Z f) (1 # 2) with
  | Lt => f
  | Gt => (f + 1)%Z
  | Eq => if Z.even f then f else (f + 1)%Z
  end.

(** Modelled from the spec: pandas' [Series.round(2)] is not part of the
    repository; "all indicator values are rounded to 2 decimal places". *)
Definition round2 (q : Q) : Q := Qmake (round_half_even (q * 100)) 100.

Definition round_series (s : Series) : Series := map (option_map round2) s.

End Pandas.
Import Pandas.

(* ================================================================== *)
(** ** The indicator library *)

Module Ta.

(** The cells of [s] at rows [i-p+1 .. i]. *)
Definition window (s : Series) (p i : nat) : Series :=
  firstn p (skipn (i + 1 - p) s).

(** The values of a window when none of its cells is NaN. *)
Fixpoint all_values (w : Series) : option (list Q) :=
  match w with
  | [] => Some []
  | None :: _ => None
  | Some q :: w' => option_map (cons q) (all_values w')
  end.

Definition Qsum (l : list Q) : Q := fold_right Qplus 0 l.

(** The arithmetic mean of [p] values. *)
Definition mean (p : nat) (l : list Q) : Q := Qsum l / inject_Z (Z.of_nat p).

Definition rolling_mean_at (s : Series) (p i : nat) : Cell :=
  if (i + 1 <? p)%nat then None
  else option_map (mean p) (all_values (window s p i)).

(** Modelled from the spec: [sma] of the pandas_ta_classic package is not
    part of the repository.  "For a Series of length n, output[i] =
    arithmetic mean of close prices over the window [i-p+1, i], undefined
    (null) for i < p-1."  The package returns nothing ([None]) for a series
    shorter than the period, and takes 10 for a period that is not positive. *)
Definition sma (close : Series) (length : Z) : option Series :=
  let p := if (0 <? length)%Z then Z.to_nat length else 10%nat in
  if (List.length close <? p)%nat then None
  else Some (map (rolling_mean_at close p) (seq 0 (List.length close))).

End Ta.

(* ================================================================== *)
(** ** The tool layer ([app/tools.py]) *)

Module Tools.

(** What a tool's [_run] returns: a single message ([str]) when the request
    is rejected, the [results] dict otherwise. *)
Inductive ToolOutput : Type :=
| Rejected (msg : string)
| Mapping (results : dict Val).

(** A request issued to the data provider. *)
Inductive Fetch : Type :=
| QuoteHistory (symbol start end_ interval : string)
| CompanyShareholders (symbol : string)
| CompanyOfficers (symbol : string)
| CompanySubsidiaries (symbol : string).

(** The [period] argument of the SMA tool: an [int] or a list of them. *)
Inductive PeriodArg : Type :=
| PInt (p : Z)
| PList (ps : list Z).

Definition valid_intervals : list string :=
  ["1m"; "5m"; "15m"; "30m"; "1H"; "1D"; "1W"; "1M"].

Definition available_columns : list string :=
  ["time"; "open"; "high"; "low"; "close"; "volume"].

Definition invalid_interval_msg : string :=
  "Khung thời gian không hợp lệ. Các khung thời gian có sẵn: "
  ++ join ", " valid_intervals.

Definition invalid_columns_msg (invalid_columns : list string) : string :=
  "Cột không hợp lệ: " ++ join ", " invalid_columns
  ++ ". Các cột có sẵn: " ++ join ", " available_columns.

Definition no_ohlcv_msg (symbol start end_ interval : string) : string :=
  "Không tìm thấy dữ liệu OHLCV cho mã " ++ symbol ++ " từ " ++ start
  ++ " đến " ++ end_ ++ " với khung thời gian " ++ interval.

Definition default_arg (a : option string) (d : string) : string :=
  match a with
  | None => d
  | Some s => s
  end.

(** [if columns:] holds for a list that is given and not empty. *)
Definition truthy (columns : option (list string)) : bool :=
  match columns with
  | Some (_ :: _) => true
  | _ => false
  end.

(** [period] as the list [periods] of the SMA tool. *)
Definition periods_of (period : PeriodArg) : list Z :=
  match period with
  | PInt p => [p]
  | PList ps => ps
  end.

(** [for p in periods: if p <= 0: return ...]: the period that stops the
    loop, if any. *)
Fixpoint first_nonpositive (periods : list Z) : option Z :=
  match periods with
  | [] => None
  | p :: ps => if (p <=? 0)%Z then Some p else first_nonpositive ps
  end.

Definition sma_column_name (p : Z) : string := "SMA_" ++ str_of_int p.
Definition rsi_column_name (p : Z) : string := "RSI_" ++ str_of_int p.

(** The state of a [for symbol in symbols] loop: the [results] dict and the
    provider requests issued so far. *)
Definition LoopState : Type := (dict Val * list Fetch)%type.

(** [for symbol in symbols: results[symbol] = <body>], every path of the
    body ending in one assignment to [results[symbol]]. *)
Definition for_each_symbol
    (body : string -> list Fetch -> Val * list Fetch)
    (symbols : list string) : LoopState :=
  fold_left
    (fun (st : LoopState) symbol =>
       let '(results, calls) := st in
       let '(v, calls) := body symbol calls in
       (dict_set symbol v results, calls))
    symbols ([], []).

Section WithProvider.

(** The provider ([vnstock]): [Quote(symbol, 'VCI').history(start, end,
    interval)] and the three facets of [Company(symbol, 'TCBS')].  Each
    raises, returns [None], or returns a frame. *)
Variable quote_history :
  string -> string -> string -> string -> Exc (option DataFrame).
Variable company_shareholders : string -> Exc (option DataFrame).
Variable company_officers : string -> Exc (option DataFrame).
Variable company_subsidiaries : string -> Exc (option DataFrame).

(** [df.to_json(orient='records', force_ascii=False)]. *)
Variable to_json : DataFrame -> Exc string.

(** [get_today()] and [get_past_date()] as read from the clock during the
    call. *)
Variable get_today : string.
Variable get_past_date : string.

(** [ta.rsi(close, length)], and what [.round(2)] gives on a column that
    holds [None] because the indicator returned nothing. *)
Variable ta_rsi : Series -> Z -> option Series.
Variable round_none_column : Exc Series.

(** A provider request: the answer, and the request added to those issued. *)
Definition history (symbol start end_ interval : string) (calls : list Fetch)
  : Exc (option DataFrame) * list Fetch :=
  (quote_history symbol start end_ interval,
   (calls ++ [QuoteHistory symbol start end_ interval])%list).

Definition shareholders (symbol : string) (calls : list Fetch)
  : Exc (option DataFrame) * list Fetch :=
  (company_shareholders symbol, (calls ++ [CompanyShareholders symbol])%list).

Definition officers (symbol : string) (calls : list Fetch)
  : Exc (option DataFrame) * list Fetch :=
  (company_officers symbol, (calls ++ [CompanyOfficers symbol])%list).

Definition subsidiaries (symbol : string) (calls : list Fetch)
  : Exc (option DataFrame) * list Fetch :=
  (company_subsidiaries symbol, (calls ++ [CompanySubsidiaries symbol])%list).

(** The body shared by the three reference-data tools: the data serialized,
    or [not_found] when it is [None] or empty. *)
Definition facet_records (not_found : string) (data : option DataFrame)
  : Exc Val :=
  match data with
  | None => Ret (VStr not_found)
  | Some df =>
      if empty df then Ret (VStr not_found)
      else js <- to_json df ;; Ret (VStr js)
  end.

(** *** [ViewShareholdersTool] *)

Definition shareholders_symbol (symbol : string) (calls : list Fetch)
  : Val * list Fetch :=
  let '(response, calls) := shareholders symbol calls in
  (try_except
     (shareholders_data <- response ;;
      facet_records ("Không tìm thấy thông tin cổ đông cho mã " ++ symbol)
        shareholders_data)
     (fun e => VStr ("Lỗi khi lấy thông tin cổ đông cho mã " ++ symbol
                     ++ ": " ++ e)),
   calls).

Definition ViewShareholdersTool_run (symbols : list string)
  : ToolOutput * list Fetch :=
  let '(results, calls) := for_each_symbol shareholders_symbol symbols in
  (Mapping results, calls).

(** *** [ViewManagementTool] *)

Definition management_symbol (symbol : string) (calls : list Fetch)
  : Val * list Fetch :=
  let '(response, calls) := officers symbol calls in
  (try_except
     (management_data <- response ;;
      facet_records ("Không tìm thấy thông tin ban lãnh đạo cho mã " ++ symbol)
        management_data)
     (fun e => VStr ("Lỗi khi lấy thông tin ban lãnh đạo cho mã " ++ symbol
                     ++ ": " ++ e)),
   calls).

Definition ViewManagementTool_run (symbols : list string)
  : ToolOutput * list Fetch :=
  let '(results, calls) := for_each_symbol management_symbol symbols in
  (Mapping results, calls).

(** *** [ViewSubsidiariesTool] *)

Definition subsidiaries_symbol (symbol : string) (calls : list Fetch)
  : Val * list Fetch :=
  let '(response, calls) := subsidiaries symbol calls in
  (try_except
     (subsidiaries_data <- response ;;
      facet_records ("Không tìm thấy thông tin công ty con cho mã " ++ symbol)
        subsidiaries_data)
     (fun e => VStr ("Lỗi khi lấy thông tin công ty con cho mã " ++ symbol
                     ++ ": " ++ e)),
   calls).

Definition ViewSubsidiariesTool_run (symbols : list string)
  : ToolOutput * list Fetch :=
  let '(results, calls) := for_each_symbol subsidiaries_symbol symbols in
  (Mapping results, calls).

(** *** [ViewOHLCVTool] *)

Definition ohlcv_error (symbol e : string) : Val :=
  VStr ("Lỗi khi lấy dữ liệu OHLCV cho mã " ++ symbol ++ ": " ++ e).

(** One iteration of the loop.  The local [columns] is rebound inside the
    loop, so it is part of the state carried to the next symbol. *)
Definition ohlcv_symbol (start end_ interval : string)
    (columns : option (list string)) (symbol : string) (calls : list Fetch)
  : Val * option (list string) * list Fetch :=
  let '(response, calls) := history symbol start end_ interval calls in
  match response with
  | Raise e => (ohlcv_error symbol e, columns, calls)
  | Ret None => (VStr (no_ohlcv_msg symbol start end_ interval), columns, calls)
  | Ret (Some ohlcv_data) =>
      if empty ohlcv_data
      then (VStr (no_ohlcv_msg symbol start end_ interval), columns, calls)
      else
        match columns with
        | Some ((_ :: _) as cols) =>
            let cols :=
              if negb (mem "time" cols) && (0 <? List.length cols)%nat
              then "time" :: cols else cols in
            let available_cols_in_data :=
              filter (fun col => has_column col ohlcv_data) cols in
            match available_cols_in_data with
            | _ :: _ =>
                (try_except
                   (ohlcv_data <- getitems ohlcv_data available_cols_in_data ;;
                    js <- to_json ohlcv_data ;;
                    Ret (VStr js))
                   (ohlcv_error symbol),
                 Some cols, calls)
            | [] =>
                (VStr ("Không tìm thấy cột nào trong dữ liệu cho mã " ++ symbol),
                 Some cols, calls)
            end
        | _ =>
            (try_except (js <- to_json ohlcv_data ;; Ret (VStr js))
               (ohlcv_error symbol),
             columns, calls)
        end
  end.

Definition ViewOHLCVTool_run (symbols : list string)
    (start end_ interval : option string) (columns : option (list string))
  : ToolOutput * list Fetch :=
  let start := default_arg start get_past_date in
  let end_ := default_arg end_ get_today in
  let interval := default_arg interval "1D" in
  if negb (mem interval valid_intervals)
  then (Rejected invalid_interval_msg, [])
  else
    let invalid_columns :=
      match columns with
      | Some ((_ :: _) as cols) =>
          filter (fun col => negb (mem col available_columns)) cols
      | _ => []
      end in
    match invalid_columns with
    | _ :: _ => (Rejected (invalid_columns_msg invalid_columns), [])
    | [] =>
        let '(results, _, calls) :=
          fold_left
            (fun (st : dict Val * option (list string) * list Fetch) symbol =>
               let '(results, columns, calls) := st in
               let '(v, columns, calls) :=
                 ohlcv_symbol start end_ interval columns symbol calls in
               (dict_set symbol v results, columns, calls))
            symbols ([], columns, []) in
        (Mapping results, calls)
    end.

(** *** [CalculateTotalVolumeTool] *)

Definition total_volume_symbol (start end_ interval : string)
    (symbol : string) (calls : list Fetch) : Val * list Fetch :=
  let '(response, calls) := history symbol start end_ interval calls in
  (try_except
     (ohlcv_data <- response ;;
      match ohlcv_data with
      | None => Ret (VStr (no_ohlcv_msg symbol start end_ interval))
      | Some ohlcv_data =>
          if empty ohlcv_data
          then Ret (VStr (no_ohlcv_msg symbol start end_ interval))
          else if negb (has_column "volume" ohlcv_data)
          then Ret (VStr ("Không tìm thấy cột 'volume' trong dữ liệu cho mã "
                          ++ symbol))
          else
            volume <- getitem ohlcv_data "volume" ;;
            let total_volume := series_sum volume in
            Ret (VInt (int_of total_volume))
      end)
     (fun e => VStr ("Lỗi khi tính tổng khối lượng cho mã " ++ symbol
                     ++ ": " ++ e)),
   calls).

Definition CalculateTotalVolumeTool_run (symbols : list string)
    (start end_ interval : option string) : ToolOutput * list Fetch :=
  let start := default_arg start get_past_date in
  let end_ := default_arg end_ get_today in
  let interval := default_arg interval "1D" in
  if negb (mem interval valid_intervals)
  then (Rejected invalid_interval_msg, [])
  else
    let '(results, calls) :=
      for_each_symbol (total_volume_symbol start end_ interval) symbols in
    (Mapping results, calls).

(** *** [CalculateSMATool] and [CalculateRSITool] *)

(** [data[name] = indicator] followed by
    [data[name] = data[name].round(2)]. *)
Definition assign_rounded (data : DataFrame) (name : string)
    (indicator : option Series) : Exc DataFrame :=
  match indicator with
  | Some s =>
      let data := setitem data name s in
      col <- getitem data name ;;
      Ret (setitem data name (round_series col))
  | None =>
      col <- round_none_column ;;
      Ret (setitem data name col)
  end.

(** [for p in periods:] over the frame of one symbol. *)
Fixpoint add_sma_columns (periods : list Z) (ohlcv_data : DataFrame)
  : Exc DataFrame :=
  match periods with
  | [] => Ret ohlcv_data
  | p :: ps =>
      close <- getitem ohlcv_data "close" ;;
      ohlcv_data <- assign_rounded ohlcv_data (sma_column_name p)
                      (Ta.sma close p) ;;
      add_sma_columns ps ohlcv_data
  end.

Definition no_close_msg (symbol : string) : string :=
  "Không tìm thấy cột 'close' trong dữ liệu cho mã " ++ symbol.

Definition sma_symbol (start end_ interval : string) (periods : list Z)
    (symbol : string) (calls : list Fetch) : Val * list Fetch :=
  let '(response, calls) := history symbol start end_ interval calls in
  (try_except
     (ohlcv_data <- response ;;
      match ohlcv_data with
      | None => Ret (VStr (no_ohlcv_msg symbol start end_ interval))
      | Some ohlcv_data =>
          if empty ohlcv_data
          then Ret (VStr (no_ohlcv_msg symbol start end_ interval))
          else if negb (has_column "close" ohlcv_data)
          then Ret (VStr (no_close_msg symbol))
          else
            ohlcv_data <- add_sma_columns periods ohlcv_data ;;
            js <- to_json ohlcv_data ;;
            Ret (VStr js)
      end)
     (fun e => VStr ("Lỗi khi tính toán SMA cho mã " ++ symbol ++ ": " ++ e)),
   calls).

Definition CalculateSMATool_run (symbols : list string)
    (start end_ interval : option string) (period : PeriodArg)
  : ToolOutput * list Fetch :=
  let start := default_arg start get_past_date in
  let end_ := default_arg end_ get_today in
  let interval := default_arg interval "1D" in
  if negb (mem interval valid_intervals)
  then (Rejected invalid_interval_msg, [])
  else
    let periods := periods_of period in
    match first_nonpositive periods with
    | Some p =>
        (Rejected ("Chu kỳ SMA phải là số dương. Giá trị nhận được: "
                   ++ str_of_int p), [])
    | None =>
        let '(results, calls) :=
          for_each_symbol (sma_symbol start end_ interval periods) symbols in
        (Mapping results, calls)
    end.

Definition rsi_symbol (start end_ interval : string) (period : Z)
    (symbol : string) (calls : list Fetch) : Val * list Fetch :=
  let '(response, calls) := history symbol start end_ interval calls in
  (try_except
     (ohlcv_data <- response ;;
      match ohlcv_data with
      | None => Ret (VStr (no_ohlcv_msg symbol start end_ interval))
      | Some ohlcv_data =>
          if empty ohlcv_data
          then Ret (VStr (no_ohlcv_msg symbol start end_ interval))
          else if negb (has_column "close" ohlcv_data)
          then Ret (VStr (no_close_msg symbol))
          else
            close <- getitem ohlcv_data "close" ;;
            ohlcv_data <- assign_rounded ohlcv_data (rsi_column_name period)
                            (ta_rsi close period) ;;
            js <- to_json ohlcv_data ;;
            Ret (VStr js)
      end)
     (fun e => VStr ("Lỗi khi tính toán RSI cho mã " ++ symbol ++ ": " ++ e)),
   calls).

Definition CalculateRSITool_run (symbols : list string)
    (start end_ interval : option string) (period : Z)
  : ToolOutput * list Fetch :=
  let start := default_arg start get_past_date in
  let end_ := default_arg end_ get_today in
  let interval := default_arg interval "1D" in
  if negb (mem interval valid_intervals)
  then (Rejected invalid_interval_msg, [])
  else if (period <=? 0)%Z
  then (Rejected ("Chu kỳ RSI phải là số dương. Giá trị nhận được: "
                  ++ str_of_int period), [])
  else
    let '(results, calls) :=
      for_each_symbol (rsi_symbol start end_ interval period) symbols in
    (Mapping results, calls).

(** *** Calling a tool by name *)

(** A call of one of the seven tools with its arguments, as the agent
    issues it. *)
Inductive ToolCall : Type :=
| view_shareholders (symbols : list string)
| view_management (symbols : list string)
| view_subsidiaries (symbols : list string)
| view_ohlcv (symbols : list string) (start end_ interval : option string)
    (columns : option (list string))
| calculate_total_volume (symbols : list string)
    (start end_ interval : option string)
| calculate_sma (symbols : list string) (start end_ interval : option string)
    (period : PeriodArg)
| calculate_rsi (symbols : list string) (start end_ interval : option string)
    (period : Z).

Definition invoke (call : ToolCall) : ToolOutput * list Fetch :=
  match call with
  | view_shareholders symbols => ViewShareholdersTool_run symbols
  | view_management symbols => ViewManagementTool_run symbols
  | view_subsidiaries symbols => ViewSubsidiariesTool_run symbols
  | view_ohlcv symbols start end_ interval columns =>
      ViewOHLCVTool_run symbols start end_ interval columns
  | calculate_total_volume symbols start end_ interval =>
      CalculateTotalVolumeTool_run symbols start end_ interval
  | calculate_sma symbols start end_ interval period =>
      CalculateSMATool_run symbols start end_ interval period
  | calculate_rsi symbols start end_ interval period =>
      CalculateRSITool_run symbols start end_ interval period
  end.

End WithProvider.

(** The [symbols] argument of a call, and the call with other symbols. *)
Definition call_symbols (call : ToolCall) : list string :=
  match call with
  | view_shareholders symbols
  | view_management symbols
  | view_subsidiaries symbols
  | view_ohlcv symbols _ _ _ _
  | calculate_total_volume symbols _ _ _
  | calculate_sma symbols _ _ _ _
  | calculate_rsi symbols _ _ _ _ => symbols
  end.

Definition with_symbols (call : ToolCall) (symbols : list string) : ToolCall :=
  match call with
  | view_shareholders _ => view_shareholders symbols
  | view_management _ => view_management symbols
  | view_subsidiaries _ => view_subsidiaries symbols
  | view_ohlcv _ start end_ interval columns =>
      view_ohlcv symbols start end_ interval columns
  | calculate_total_volume _ start end_ interval =>
      calculate_total_volume symbols start end_ interval
  | calculate_sma _ start end_ interval period =>
      calculate_sma symbols start end_ interval period
  | calculate_rsi _ start end_ interval period =>
      calculate_rsi symbols start end_ interval period
  end.

(** The [interval] the call runs with, for the tools that take one. *)
Definition call_interval (call : ToolCall) : option string :=
  match call with
  | view_ohlcv _ _ _ interval _
  | calculate_total_volume _ _ _ interval
  | calculate_sma _ _ _ interval _
  | calculate_rsi _ _ _ interval _ => Some (default_arg interval "1D")
  | _ => None
  end.

(** The periods of a call, for the two indicator tools. *)
Definition call_periods (call : ToolCall) : option (list Z) :=
  match call with
  | calculate_sma _ _ _ _ period => Some (periods_of period)
  | calculate_rsi _ _ _ _ period => Some [period]
  | _ => None
  end.

(** The requested columns of a call, when it asks for some. *)
Definition call_columns (call : ToolCall) : list string :=
  match call with
  | view_ohlcv _ _ _ _ (Some cols) => cols
  | _ => []
  end.

(** The structural inputs of a call are valid: the interval is one of the
    eight, the requested columns are among the six, the periods are
    positive. *)
Definition structurally_valid (call : ToolCall) : bool :=
  match call_interval call with
  | Some interval => mem interval valid_intervals
  | None => true
  end
  && forallb (fun col => mem col available_columns) (call_columns call)
  && match call_periods call with
     | Some periods => forallb (fun p => (0 <? p)%Z) periods
     | None => true
     end.

End Tools.

(* ================================================================== *)
(** ** The agent's tool set ([app/agent.py]) *)

Module Agent.

Record Tool : Type := mkTool {
  name : string;
  return_direct : bool
}.

(** The tool classes: each declares [return_direct: bool = False], which a
    keyword argument of the constructor overrides. *)
Definition construct (name : string) (return_direct : option bool) : Tool :=
  mkTool name (match return_direct with Some b => b | None => false end).

Definition ViewOHLCVTool := construct "view_ohlcv".
Definition ViewManagementTool := construct "view_management".
Definition ViewShareholdersTool := construct "view_shareholders".
Definition ViewSubsidiariesTool := construct "view_subsidiaries".
Definition CalculateTotalVolumeTool := construct "calculate_total_volume".
Definition CalculateSMATool := construct "calculate_sma".
Definition CalculateRSITool := construct "calculate_rsi".

(** The [tools] list of [create_finance_agent]. *)
Definition create_finance_agent_tools : list Tool :=
  [ ViewOHLCVTool (Some true);
    ViewManagementTool (Some false);
    ViewShareholdersTool (Some false);
    ViewSubsidiariesTool (Some false);
    CalculateTotalVolumeTool (Some false);
    CalculateSMATool (Some true);
    CalculateRSITool (Some true) ].

End Agent.

(* ================================================================== *)
(** ** The request handler ([app/main.py]) *)

Module Orchestrator.

(** The dict an agent invocation returns.  [structured_response] is the
    [content] of that entry when the key is present, [output] the entry of
    that name, [messages] the [content] of each message, and [str_of] the
    text [str(result)] of the whole dict. *)
Record AgentResult : Type := mkResult {
  structured_response : option string;
  output : option string;
  messages : option (list string);
  str_of : string
}.

Record QueryClassification : Type := mkClassification {
  is_complex : bool;
  reasoning : string
}.

Record QueryResponse : Type := mkResponse {
  answer : string;
  response_is_complex : bool;
  response_reasoning : string
}.

(** A value read by [json.loads]. *)
#[warnings="-register-all"]
Inductive Json : Type :=
| JNull
| JBool (b : bool)
| JNum (q : Q)
| JStr (s : string)
| JArr (l : list Json)
| JObj (kv : list (string * Json)).

(** A call to one of the collaborators, in the order issued. *)
Inductive Event : Type :=
| Classify (query : string)
| Decompose (query : string)
| AgentInvoke (content : string)
| Combine (original_query results : string).

(** A step of the handler: it may raise, and it adds to the calls issued. *)
Definition Run (A : Type) : Type := list Event -> Exc A * list Event.

Definition ret {A} (a : A) : Run A := fun log => (Ret a, log).

Definition bindR {A B} (m : Run A) (k : A -> Run B) : Run B :=
  fun log =>
    match m log with
    | (Raise e, log') => (Raise e, log')
    | (Ret a, log') => k a log'
    end.

Notation "x <~ m ;; k" := (bindR m (fun x => k))
  (at level 61, m at next level, right associativity).

(** A call to a collaborator [f] recorded as [ev]. *)
Definition call {A} (ev : Event) (f : Exc A) : Run A :=
  fun log => (f, (log ++ [ev])%list).

(** [result.get('output', str(result))]. *)
Definition get_output (result : AgentResult) : string :=
  match output result with
  | Some o => o
  | None => str_of result
  end.

(** [for i, result in enumerate(results, 1): formatted_results += ...]. *)
Fixpoint format_results (i : Z) (results : list AgentResult)
    (formatted_results : string) : string :=
  match results with
  | [] => formatted_results
  | result :: rest =>
      format_results (i + 1) rest
        (formatted_results ++ "Kết quả " ++ str_of_int i ++ ":" ++ nl
         ++ get_output result ++ nl ++ nl)
  end.

(** [result['messages'][-1].content]. *)
Definition last_message_content (result : AgentResult) : Exc string :=
  match messages result with
  | None => Raise "'messages'"
  | Some msgs =>
      match rev msgs with
      | [] => Raise "list index out of range"
      | content :: _ => Ret content
      end
  end.

(** The elements a [for] loop or [list.extend] takes from a JSON value. *)
Definition py_iter (j : Json) : Exc (list Json) :=
  match j with
  | JArr l => Ret l
  | JObj kv => Ret (map (fun e => JStr (fst e)) kv)
  | JStr s =>
      Ret (map (fun c => JStr (String c EmptyString)) (list_ascii_of_string s))
  | _ => Raise "object is not iterable"
  end.

(** [r["symbol"] = symbol]: only a dict takes a [str] key. *)
Definition set_symbol (symbol : string) (r : Json) : Exc Json :=
  match r with
  | JObj kv => Ret (JObj (dict_set "symbol" (JStr symbol) kv))
  | _ => Raise "object does not support item assignment"
  end.

(** [for r in records: r["symbol"] = symbol]. *)
Fixpoint stamp_all (symbol : string) (records : list Json)
  : Exc (list Json) :=
  match records with
  | [] => Ret []
  | r :: rest =>
      r' <- set_symbol symbol r ;;
      rest' <- stamp_all symbol rest ;;
      Ret (r' :: rest')
  end.

Section WithCollaborators.

(** The language-model chains and the agent. *)
Variable classifier_chain : string -> Exc QueryClassification.
Variable decompose_complex_query : string -> Exc (list string).
Variable agent : string -> Exc AgentResult.
Variable combine_chain : string -> string -> Exc string.

(** [json.loads], and pandas: [pd.DataFrame(rows)],
    [df["time"] = pd.to_datetime(df["time"], unit="ms")] and
    [df.to_string(index=False)] on a table of records. *)
Variable json_loads : string -> Exc Json.
Variable Table : Type.
Variable pd_DataFrame : list Json -> Exc Table.
Variable time_to_datetime : Table -> Exc Table.
Variable to_string : Table -> Exc string.

(** [for symbol, inner_json_str in outer.items():] *)
Fixpoint collect_rows (items : list (string * Json)) (all_rows : list Json)
  : Exc (list Json) :=
  match items with
  | [] => Ret all_rows
  | (symbol, inner_json_str) :: rest =>
      records <- match inner_json_str with
                 | JStr s => json_loads s
                 | _ => Raise "the JSON object must be str, bytes or bytearray"
                 end ;;
      rs <- py_iter records ;;
      rs <- stamp_all symbol rs ;;
      collect_rows rest (all_rows ++ rs)%list
  end.

(** The body of the [try] of the simple path: the raw tool data as a
    table. *)
Definition table_answer (result : AgentResult) : Exc string :=
  content <- last_message_content result ;;
  outer <- json_loads content ;;
  items <- match outer with
           | JObj kv => Ret kv
           | _ => Raise "object has no attribute 'items'"
           end ;;
  all_rows <- collect_rows items [] ;;
  df <- pd_DataFrame all_rows ;;
  df <- time_to_datetime df ;;
  to_string df.

(** The answer of the simple path ("Handle different response formats"). *)
Definition extract_answer (result : AgentResult) : Exc string :=
  match structured_response result with
  | Some content => Ret content
  | None =>
      Ret (try_except (table_answer result)
             (fun _ => match output result with
                       | Some o => o
                       | None => str_of result
                       end))
  end.

(** [for sub_query in decomposed_queries: results.append(agent.invoke(...))] *)
Fixpoint invoke_each (decomposed_queries : list string)
    (results : list AgentResult) : Run (list AgentResult) :=
  match decomposed_queries with
  | [] => ret results
  | sub_query :: rest =>
      agent_result <~ call (AgentInvoke sub_query) (agent sub_query) ;;
      invoke_each rest (results ++ [agent_result])%list
  end.

(** The handler; an exception anywhere becomes the HTTP error
    ["Error processing query: ..."]. *)
Definition process_query (query : string) : Run QueryResponse :=
  fun log =>
    match
      (classification_result <~ call (Classify query) (classifier_chain query) ;;
       if is_complex classification_result then
         decomposed_queries <~
           call (Decompose query) (decompose_complex_query query) ;;
         results <~ invoke_each decomposed_queries [] ;;
         let formatted_results := format_results 1 results EmptyString in
         combined_answer <~
           call (Combine query formatted_results)
             (combine_chain query formatted_results) ;;
         ret (mkResponse combined_answer true
                (reasoning classification_result))
       else
         result <~ call (AgentInvoke query) (agent query) ;;
         answer <~ (fun log => (extract_answer result, log)) ;;
         ret (mkResponse answer false (reasoning classification_result)))
      log
    with
    | (Raise e, log') => (Raise ("Error processing query: " ++ e), log')
    | done => done
    end.

End WithCollaborators.

(** The text handed to the combiner: one block per payload, numbered from
    [i], in order. *)
Definition result_block (i : Z) (payload : string) : string :=
  "Kết quả " ++ str_of_int i ++ ":" ++ nl ++ payload ++ nl ++ nl.

Fixpoint result_blocks (i : Z) (payloads : list string) : string :=
  match payloads with
  | [] => EmptyString
  | payload :: rest => result_block i payload ++ result_blocks (i + 1) rest
  end.

(** A row of the table carries the symbol of one of the entries. *)
Definition stamped (items : list (string * Json)) (row : Json) : Prop :=
  exists symbol kv,
    In symbol (keys items) /\ row = JObj kv
    /\ dict_get "symbol" kv = Some (JStr symbol).

End Orchestrator.

(* ================================================================== *)
(** ** What a tool call yields for one symbol *)

Module PerSymbol.
Import Tools.

(** [results] after [for s in l: results[s] = f(s)], starting from [d]. *)
Definition fill {V} (f : string -> V) (l : list string) (d : dict V) : dict V :=
  fold_left (fun d s => dict_set s (f s) d) l d.

(** The binding of [columns] once the price tool has put ["time"] in front
    of it. *)
Definition with_time (columns : option (list string)) : option (list string) :=
  match columns with
  | Some ((_ :: _) as cols) =>
      Some (if negb (mem "time" cols) then "time" :: cols else cols)
  | c => c
  end.

Section WithProvider.

Variable quote_history :
  string -> string -> string -> string -> Exc (option DataFrame).
Variable company_shareholders : string -> Exc (option DataFrame).
Variable company_officers : string -> Exc (option DataFrame).
Variable company_subsidiaries : string -> Exc (option DataFrame).
Variable to_json : DataFrame -> Exc string.
Variable get_today : string.
Variable get_past_date : string.
Variable ta_rsi : Series -> Z -> option Series.
Variable round_none_column : Exc Series.

Definition start_of (start : option string) := default_arg start get_past_date.
Definition end_of (end_ : option string) := default_arg end_ get_today.
Definition interval_of (interval : option string) := default_arg interval "1D".

(** The value a call stores for [symbol]: the loop body run on its own. *)
Definition symbol_value (call : ToolCall) (symbol : string) : Val :=
  match call with
  | view_shareholders _ =>
      fst (shareholders_symbol company_shareholders to_json symbol [])
  | view_management _ =>
      fst (management_symbol company_officers to_json symbol [])
  | view_subsidiaries _ =>
      fst (subsidiaries_symbol company_subsidiaries to_json symbol [])
  | view_ohlcv _ start end_ interval columns =>
      fst (fst (ohlcv_symbol quote_history to_json (start_of start)
                  (end_of end_) (interval_of interval) columns symbol []))
  | calculate_total_volume _ start end_ interval =>
      fst (total_volume_symbol quote_history (start_of start) (end_of end_)
             (interval_of interval) symbol [])
  | calculate_sma _ start end_ interval period =>
      fst (sma_symbol quote_history to_json round_none_column (start_of start)
             (end_of end_) (interval_of interval) (periods_of period) symbol [])
  | calculate_rsi _ start end_ interval period =>
      fst (rsi_symbol quote_history to_json ta_rsi round_none_column
             (start_of start) (end_of end_) (interval_of interval) period
             symbol [])
  end.

(** The provider request a call issues for [symbol], and its answer. *)
Definition symbol_fetch (call : ToolCall) (symbol : string) : Fetch :=
  match call with
  | view_shareholders _ => CompanyShareholders symbol
  | view_management _ => CompanyOfficers symbol
  | view_subsidiaries _ => CompanySubsidiaries symbol
  | view_ohlcv _ start end_ interval _
  | calculate_total_volume _ start end_ interval
  | calculate_sma _ start end_ interval _
  | calculate_rsi _ start end_ interval _ =>
      QuoteHistory symbol (start_of start) (end_of end_) (interval_of interval)
  end.

Definition provider_answer (f : Fetch) : Exc (option DataFrame) :=
  match f with
  | QuoteHistory symbol start end_ interval =>
      quote_history symbol start end_ interval
  | CompanyShareholders symbol => company_shareholders symbol
  | CompanyOfficers symbol => company_officers symbol
  | CompanySubsidiaries symbol => company_subsidiaries symbol
  end.

(** The message a call stores for a symbol without data. *)
Definition not_found_msg (call : ToolCall) (symbol : string) : string :=
  match call with
  | view_shareholders _ => "Không tìm thấy thông tin cổ đông cho mã " ++ symbol
  | view_management _ =>
      "Không tìm thấy thông tin ban lãnh đạo cho mã " ++ symbol
  | view_subsidiaries _ =>
      "Không tìm thấy thông tin công ty con cho mã " ++ symbol
  | view_ohlcv _ start end_ interval _
  | calculate_total_volume _ start end_ interval
  | calculate_sma _ start end_ interval _
  | calculate_rsi _ start end_ interval _ =>
      no_ohlcv_msg symbol (start_of start) (end_of end_) (interval_of interval)
  end.

(** The message a call stores for a symbol whose processing raised [e]. *)
Definition exception_msg (call : ToolCall) (symbol e : string) : string :=
  match call with
  | view_shareholders _ => "Lỗi khi lấy thông tin cổ đông cho mã "
  | view_management _ => "Lỗi khi lấy thông tin ban lãnh đạo cho mã "
  | view_subsidiaries _ => "Lỗi khi lấy thông tin công ty con cho mã "
  | view_ohlcv _ _ _ _ _ => "Lỗi khi lấy dữ liệu OHLCV cho mã "
  | calculate_total_volume _ _ _ _ => "Lỗi khi tính tổng khối lượng cho mã "
  | calculate_sma _ _ _ _ _ => "Lỗi khi tính toán SMA cho mã "
  | calculate_rsi _ _ _ _ _ => "Lỗi khi tính toán RSI cho mã "
  end ++ symbol ++ ": " ++ e.

(** The field a call expects in the fetched data, and the message it stores
    for a symbol whose data lacks it. *)
Definition expected_field (call : ToolCall) : option string :=
  match call with
  | calculate_total_volume _ _ _ _ => Some "volume"
  | calculate_sma _ _ _ _ _ | calculate_rsi _ _ _ _ _ => Some "close"
  | _ => None
  end.

(** The message of an indicator tool for a period that is not positive. *)
Definition nonpositive_period_msg (call : ToolCall) (p : Z) : string :=
  match call with
  | calculate_rsi _ _ _ _ _ => "Chu kỳ RSI phải là số dương. Giá trị nhận được: "
  | _ => "Chu kỳ SMA phải là số dương. Giá trị nhận được: "
  end ++ str_of_int p.

Definition missing_field_msg (field symbol : string) : string :=
  "Không tìm thấy cột '" ++ field ++ "' trong dữ liệu cho mã " ++ symbol.

Definition no_columns_msg (symbol : string) : string :=
  "Không tìm thấy cột nào trong dữ liệu cho mã " ++ symbol.

(** The rounded moving average of period [p] the SMA tool computes from
    fully defined closes. *)
Definition rounded_sma (closes : list Q) (p : Z) : Series :=
  round_series
    (map (Ta.rolling_mean_at (map Some closes) (Z.to_nat p))
       (seq 0 (List.length closes))).

(** The tools that serialize the fetched frame as it is: the reference-data
    tools, and the price view when no column is requested. *)
Definition serializes_fetched (call : ToolCall) : bool :=
  match call with
  | view_shareholders _ | view_management _ | view_subsidiaries _ => true
  | view_ohlcv _ _ _ _ columns => negb (truthy columns)
  | _ => false
  end.

(** The texts a call can store as the error of [symbol]. *)
Definition is_error_of (call : ToolCall) (symbol msg : string) : Prop :=
  msg = not_found_msg call symbol
  \/ (exists field, expected_field call = Some field
                    /\ msg = missing_field_msg field symbol)
  \/ msg = no_columns_msg symbol
  \/ (exists e, msg = exception_msg call symbol e).

(** A stored value is a success value (an integer, or the JSON text of a
    frame) or an error text of the symbol. *)
Definition is_result_of (call : ToolCall) (symbol : string) (v : Val) : Prop :=
  (exists n, v = VInt n)
  \/ (exists df js, to_json df = Ret js /\ v = VStr js)
  \/ (exists msg, v = VStr msg /\ is_error_of call symbol msg).

End WithProvider.

End PerSymbol.

(* ================================================================== *)
(** ** A concrete provider

    A small market used to run the tools: [VCB] has three daily bars, [FPT]
    has bars without a volume or time column, the provider fails on [ERR],
    and any other symbol has no data. *)

Module Scenario.

Definition vcb_bars : DataFrame :=
  mkFrame 3
    [ ("time", [Some (1730678400000 # 1); Some (1730764800000 # 1);
                Some (1730851200000 # 1)]);
      ("open", [Some (92 # 1); Some (93 # 1); Some (95 # 1)]);
      ("high", [Some (94 # 1); Some (96 # 1); Some (97 # 1)]);
      ("low", [Some (91 # 1); Some (92 # 1); Some (94 # 1)]);
      ("close", [Some (93 # 1); Some (95 # 1); Some (96 # 1)]);
      ("volume", [Some (1000 # 1); Some (2500 # 1); Some (1500 # 1)]) ].

Definition fpt_bars : DataFrame :=
  mkFrame 2 [ ("price", [Some (120 # 1); Some (121 # 1)]) ].

Definition quote_history (symbol start end_ interval : string)
  : Exc (option DataFrame) :=
  if String.eqb symbol "VCB" then Ret (Some vcb_bars)
  else if String.eqb symbol "FPT" then Ret (Some fpt_bars)
  else if String.eqb symbol "ERR" then Raise "ConnectionError"
  else Ret None.

Definition company (symbol : string) : Exc (option DataFrame) :=
  if String.eqb symbol "VCB"
  then Ret (Some (mkFrame 1 [("share_own_percent", [Some (74 # 100)])]))
  else if String.eqb symbol "ERR" then Raise "ConnectionError"
  else Ret None.

(** A stand-in serializer: the row count and the column names. *)
Definition to_json (df : DataFrame) : Exc string :=
  Ret ("[" ++ str_of_int (Z.of_nat (index_len df)) ++ " records: "
       ++ join "," (keys (columns df)) ++ "]").

(** The changes of the closes from one row to the next, and the part of a
    change that is a gain or a loss. *)
Fixpoint changes (prev : Q) (closes : list Q) : list Q :=
  match closes with
  | [] => []
  | x :: rest => (x - prev) :: changes x rest
  end.

Definition gain (d : Q) : Q := if Qle_bool 0 d then d else 0.
Definition loss (d : Q) : Q := if Qle_bool d 0 then - d else 0.

(** The sums of the elements so far, each older element weighing [decay]
    times the next one. *)
Fixpoint weighted_sums (decay acc : Q) (l : list Q) : list Q :=
  match l with
  | [] => []
  | x :: rest =>
      let acc := decay * acc + x in
      acc :: weighted_sums decay acc rest
  end.

(** A stand-in for [ta.rsi] on defined closes, after the computation of the
    package: nothing for a series shorter than the period (14 for a period
    that is not positive); otherwise a series that is null on the first
    [length] rows and then 100 times the share of the gains in the weighted
    gains and losses so far (decay [1 - 1/length]), null where there is
    neither a gain nor a loss.  A series with a null close gets nulls. *)
Definition ta_rsi (close : Series) (length : Z) : option Series :=
  let p := if (0 <? length)%Z then Z.to_nat length else 14%nat in
  if (List.length close <? p)%nat then None
  else
    match Ta.all_values close with
    | None => Some (map (fun _ => None) close)
    | Some [] => Some []
    | Some (c0 :: cs) =>
        let ds := changes c0 cs in
        let decay := 1 - 1 / inject_Z (Z.of_nat p) in
        let ups := weighted_sums decay 0 (map gain ds) in
        let downs := weighted_sums decay 0 (map loss ds) in
        Some (None
              :: map (fun row : nat * (Q * Q) =>
                        let '(i, (u, d)) := row in
                        if (i <? p)%nat then None
                        else if Qeq_bool (u + d) 0 then None
                        else Some (100 * u / (u + d)))
                   (combine (seq 1 (List.length ds)) (combine ups downs)))
    end.

Definition round_none_column : Exc Series :=
  Raise "loop of ufunc does not support argument 0 of type NoneType".

Definition invoke : Tools.ToolCall -> Tools.ToolOutput * list Tools.Fetch :=
  Tools.invoke quote_history company company company to_json
    "2026-11-04" "2026-10-05" ta_rsi round_none_column.

(** The collaborators of the request handler: a classifier that takes a
    question starting with "So sánh" or naming two things for complex, an
    agent that narrates reference data and returns price data raw, and a
    parser that knows the payload of that one price answer. *)

Definition dq : string := String (ascii_of_nat 34) EmptyString.
Definition bs : string := String (ascii_of_nat 92) EmptyString.

Definition vcb_records : string :=
  "[{" ++ dq ++ "time" ++ dq ++ ":1730678400000," ++ dq ++ "close" ++ dq
  ++ ":93}]".

Definition vcb_payload : string :=
  "{" ++ dq ++ "VCB" ++ dq ++ ": " ++ dq ++ "[{" ++ bs ++ dq ++ "time" ++ bs
  ++ dq ++ ":1730678400000," ++ bs ++ dq ++ "close" ++ bs ++ dq ++ ":93}]"
  ++ dq ++ "}".

Definition price_query : string := "Giá cổ phiếu VCB hôm nay".
Definition officers_query : string :=
  "Danh sách ban lãnh đạo đang làm việc của VCB".
Definition subsidiaries_query : string :=
  "Danh sách các công ty con thuộc VCB".
Definition complex_query : string :=
  "Danh sách ban lãnh đạo đang làm việc của VCB và Các công ty con thuộc VCB".

Definition classifier_chain (query : string)
  : Exc Orchestrator.QueryClassification :=
  if String.eqb query complex_query
  then Ret (Orchestrator.mkClassification true "Cần 2 công cụ khác nhau")
  else Ret (Orchestrator.mkClassification false "Chỉ cần 1 công cụ").

Definition decompose_complex_query (query : string) : Exc (list string) :=
  Ret [officers_query; subsidiaries_query].

Definition price_result : Orchestrator.AgentResult :=
  Orchestrator.mkResult None None (Some [price_query; "(tool call)"; vcb_payload])
    ("{'messages': [HumanMessage(...), AIMessage(...), ToolMessage(...)]}").

Definition narrated (content : string) : Orchestrator.AgentResult :=
  Orchestrator.mkResult (Some ("Trả lời: " ++ content)) None
    (Some [content; "(tool call)"; "{...}"; "Trả lời: " ++ content])
    ("{'messages': [HumanMessage(content='" ++ content
     ++ "'), ...], 'structured_response': agent_response_format(...)}").

Definition agent (content : string) : Exc Orchestrator.AgentResult :=
  if String.eqb content price_query then Ret price_result
  else Ret (narrated content).

Definition combine_chain (original_query results : string) : Exc string :=
  Ret ("Tổng hợp: " ++ results).

Definition json_loads (s : string) : Exc Orchestrator.Json :=
  if String.eqb s vcb_payload
  then Ret (Orchestrator.JObj [("VCB", Orchestrator.JStr vcb_records)])
  else if String.eqb s vcb_records
  then Ret (Orchestrator.JArr
              [Orchestrator.JObj
                 [("time", Orchestrator.JNum (1730678400000 # 1));
                  ("close", Orchestrator.JNum (93 # 1))]])
  else Raise "Expecting value: line 1 column 1 (char 0)".

(** A stand-in for pandas: the table is the list of rows, a frame without a
    time column is refused, and the rendering gives the number of rows. *)
Definition Table : Type := list Orchestrator.Json.

Definition pd_DataFrame (rows : list Orchestrator.Json) : Exc Table := Ret rows.

Definition has_time (row : Orchestrator.Json) : bool :=
  match row with
  | Orchestrator.JObj kv => mem "time" (keys kv)
  | _ => false
  end.

Definition time_to_datetime (df : Table) : Exc Table :=
  if existsb has_time df then Ret df else Raise "'time'".

Definition to_string (df : Table) : Exc string :=
  Ret ("table of " ++ str_of_int (Z.of_nat (List.length df)) ++ " rows").

Definition extract_answer : Orchestrator.AgentResult -> Exc string :=
  Orchestrator.extract_answer json_loads Table pd_DataFrame time_to_datetime
    to_string.

Definition process_query : string -> Orchestrator.Run Orchestrator.QueryResponse :=
  Orchestrator.process_query classifier_chain decompose_complex_query agent
    combine_chain json_loads Table pd_DataFrame time_to_datetime to_string.

End Scenario.

(* ================================================================== *)
(** ** The offline batch tester ([auto_test.py]) *)

Module AutoTest.
Import Orchestrator.

(** A row of the frame read from the template: the two columns the script
    reads and the one it fills. *)
Record Row : Type := mkRow {
  question : string;
  expected_answer : string;
  actual_answer : option Json
}.

(** What the script does to the outside, in order. *)
Inductive Action : Type :=
| Post (url query : string)
| Sleep (seconds : Z)
| ToCsv (path : string) (data : list Row).

Definition api_url : string := "http://localhost:8000/query".

Section WithApi.

(** [requests.post(url, json={'query': query}).json()]: the JSON object of
    the response, or the exception of the request or of the decoding. *)
Variable post_json : string -> string -> Exc (list (string * Json)).

(** [for index, row in data.iterrows():] from row [index] on, for a frame
    of [len] rows. *)
Fixpoint test_queries (len index : Z) (rows : list Row) (log : list Action)
  : Exc (list Row) * list Action :=
  match rows with
  | [] => (Ret [], log)
  | row :: rest =>
      let query := question row in
      let log := (log ++ [Post api_url query])%list in
      match post_json api_url query with
      | Raise e => (Raise e, log)
      | Ret response =>
          match dict_get "answer" response with
          | None => (Raise "'answer'", log)
          | Some answer =>
              let row :=
                mkRow (question row) (expected_answer row) (Some answer) in
              let log :=
                if (index <? len - 1)%Z then (log ++ [Sleep 5])%list
                else log in
              match test_queries len (index + 1) rest log with
              | (Raise e, log) => (Raise e, log)
              | (Ret rest, log) => (Ret (row :: rest), log)
              end
          end
      end
  end.

(** The script, from the frame read from the template on. *)
Definition auto_test (data : list Row) : Exc unit * list Action :=
  match test_queries (Z.of_nat (List.length data)) 0 data [] with
  | (Raise e, log) => (Raise e, log)
  | (Ret data, log) =>
      (Ret tt, (log ++ [ToCsv "assets/test_results.csv" data])%list)
  end.

End WithApi.

(** [l] with [sep] between each two neighbours. *)
Fixpoint intersperse {A} (sep : A) (l : list A) : list A :=
  match l with
  | [] => []
  | [x] => [x]
  | x :: rest => x :: sep :: intersperse sep rest
  end.

(** The rows with their answers filled in. *)
Fixpoint with_answers (data : list Row) (answers : list Json) : list Row :=
  match data, answers with
  | row :: data', a :: answers' =>
      mkRow (question row) (expected_answer row) (Some a)
      :: with_answers data' answers'
  | _, _ => []
  end.

Definition is_to_csv (a : Action) : bool :=
  match a with
  | ToCsv _ _ => true
  | _ => false
  end.

End AutoTest.

(* ================================================================== *)
(** ** Shapes of frames and payloads *)

Module Shapes.
Import Tools Orchestrator.

(** The columns the price view keeps for a requested list: the time column
    in front unless it is asked for, then the requested ones, each only if
    the fetched frame has it. *)
Definition kept_columns (cols : list string) (df : DataFrame) : list string :=
  filter (fun col => has_column col df)
    (if mem "time" cols then cols else "time" :: cols).

(** The requested columns that are not among the six available ones. *)
Definition invalid_columns (cols : list string) : list string :=
  filter (fun col => negb (mem col available_columns)) cols.

(** The column names a run of the SMA tool adds to a frame that has the
    columns [present]. *)
Definition new_sma_columns (periods : list Z) (present : list string)
  : list string :=
  filter (fun name => negb (mem name present))
    (first_occurrences (map sma_column_name periods)).

(** A record with its symbol field set. *)
Definition stamp (symbol : string) (kv : list (string * Json)) : Json :=
  JObj (dict_set "symbol" (JStr symbol) kv).

(** The rows of the table for entries that parse to lists of records. *)
Definition table_rows (parsed : list (string * list (list (string * Json))))
  : list Json :=
  flat_map (fun p => map (stamp (fst p)) (snd p)) parsed.

Section WithParser.

Variable json_loads : string -> Exc Json.

(** An entry of the payload whose value is not a text that decodes. *)
Definition undecodable (item : string * Json) : Prop :=
  match snd item with
  | JStr s => exists e, json_loads s = Raise e
  | _ => True
  end.

(** An entry of the payload whose value decodes to a list of records. *)
Definition decodes_to (item : string * Json)
    (p : string * list (list (string * Json))) : Prop :=
  fst item = fst p
  /\ exists s, snd item = JStr s /\ json_loads s = Ret (JArr (map JObj (snd p))).

End WithParser.

End Shapes.

(* ================================================================== *)
(** ** More concrete collaborators *)

Module Failing.
Import Orchestrator.

(** A classifier whose output cannot be parsed. *)
Definition classifier_chain (query : string) : Exc QueryClassification :=
  Raise "Failed to parse QueryClassification from completion".

(** An agent that times out on the question about subsidiaries. *)
Definition agent (content : string) : Exc AgentResult :=
  if String.eqb content Scenario.subsidiaries_query
  then Raise "TimeoutError"
  else Scenario.agent content.

(** The payload of a price answer for [VCB] and a symbol without data. *)
Definition no_data_text : string :=
  "Không tìm thấy dữ liệu OHLCV cho mã ZZZZ".

Definition mixed_payload : string :=
  "{VCB: [...], ZZZZ: " ++ no_data_text ++ "}".

Definition json_loads (s : string) : Exc Json :=
  if String.eqb s mixed_payload
  then Ret (JObj [("VCB", JStr Scenario.vcb_records);
                  ("ZZZZ", JStr no_data_text)])
  else Scenario.json_loads s.

Definition mixed_result : AgentResult :=
  mkResult None None (Some ["Giá VCB và ZZZZ"; "(tool call)"; mixed_payload])
    "{'messages': [HumanMessage(...), AIMessage(...), ToolMessage(...)]}".

(** A provider that knows one more symbol, [HPG], whose bars have a time
    and a close column only. *)
Definition hpg_bars : DataFrame :=
  mkFrame 2
    [ ("time", [Some (1730678400000 # 1); Some (1730764800000 # 1)]);
      ("close", [Some (26 # 1); Some (27 # 1)]) ].

Definition quote_history (symbol start end_ interval : string)
  : Exc (option DataFrame) :=
  if String.eqb symbol "HPG" then Ret (Some hpg_bars)
  else Scenario.quote_history symbol start end_ interval.

(** An API that answers two questions and fails on any other. *)
Definition post_json (url query : string) : Exc (list (string * Json)) :=
  if String.eqb query "q1"
  then Ret [("answer", JStr "a1"); ("is_complex", JBool false)]
  else if String.eqb query "q2"
  then Ret [("answer", JStr "a2"); ("is_complex", JBool true)]
  else Ret [("detail", JStr "Error processing query: TimeoutError")].

End Failing.

(* ================================================================== *)
(** ** A provider with very large volumes *)

Module Overflow.

(** Two bars whose volumes add up to [2^63], one more than the largest
    integer of 64 bits. *)
Definition big_bars : DataFrame :=
  mkFrame 2
    [ ("time", [Some (1730678400000 # 1); Some (1730764800000 # 1)]);
      ("close", [Some (1 # 1); Some (1 # 1)]);
      ("volume", [Some (inject_Z (2 ^ 62)); Some (inject_Z (2 ^ 62))]) ].

Definition quote_history (symbol start end_ interval : string)
  : Exc (option DataFrame) :=
  if String.eqb symbol "BIG" then Ret (Some big_bars) else Ret None.

End Overflow.

(* ================================================================== *)
(** * Properties *)

Import Tools PerSymbol.

(** ** Dictionaries filled by a loop *)

Section DictFacts.

Context {V : Type}.
Implicit Types (d : dict V) (k s : string) (l : list string).

Lemma dict_get_set_same k (v : V) d : dict_get k (dict_set k v d) = Some v.
Proof.
  induction d as [|[k' v'] d IH]; simpl.
  - now rewrite String.eqb_refl.
  - destruct (String.eqb k' k) eqn:E; simpl; rewrite E; auto.
Qed.

Lemma dict_get_set_other k k' (v : V) d :
  k <> k' -> dict_get k (dict_set k' v d) = dict_get k d.
Proof.
  intros Hne. induction d as [|[k0 v0] d IH]; simpl.
  - destruct (String.eqb_spec k' k); congruence.
  - destruct (String.eqb_spec k0 k'); simpl.
    + subst k0. destruct (String.eqb_spec k' k); congruence.
    + destruct (String.eqb_spec k0 k); auto.
Qed.

Lemma mem_In k l : mem k l = true <-> In k l.
Proof.
  unfold mem. rewrite existsb_exists. split.
  - intros (x & Hx & E). apply String.eqb_eq in E. now subst.
  - intros H. exists k. split; auto. apply String.eqb_refl.
Qed.

Lemma mem_cons_same k l : mem k (k :: l) = true.
Proof. unfold mem. simpl. now rewrite String.eqb_refl. Qed.

Lemma mem_app k l l' : mem k (l ++ l') = mem k l || mem k l'.
Proof. apply existsb_app. Qed.

Lemma keys_dict_set k (v : V) d :
  keys (dict_set k v d) = if mem k (keys d) then keys d else (keys d ++ [k])%list.
Proof.
  induction d as [|[k' v'] d IH]; simpl; auto.
  rewrite (String.eqb_sym k k').
  destruct (String.eqb k' k) eqn:E; simpl; auto.
  unfold keys in *. rewrite IH.
  now destruct (mem k (map fst d)).
Qed.

Lemma dict_get_mem k d : mem k (keys d) = true <-> exists v, dict_get k d = Some v.
Proof.
  induction d as [|[k' v'] d IH]; simpl.
  - split; [discriminate | intros [? ?]; discriminate].
  - rewrite (String.eqb_sym k k'). destruct (String.eqb k' k); simpl; auto.
    split; eauto.
Qed.

Lemma dict_get_fill (f : string -> V) l d s :
  dict_get s (fill f l d) = if mem s l then Some (f s) else dict_get s d.
Proof.
  revert d. induction l as [|x l IH]; intros d; simpl; auto.
  unfold fill in *. simpl. rewrite IH.
  destruct (mem s l) eqn:El; [now rewrite orb_true_r|].
  rewrite orb_false_r. destruct (String.eqb_spec s x).
  - subst. apply dict_get_set_same.
  - now apply dict_get_set_other.
Qed.

Lemma filter_first_occurrence (K : list string) x (L : list string) :
  filter (fun y => negb (mem y (K ++ [x])))%list L
  = filter (fun y => negb (mem y K))
      (filter (fun y => negb (String.eqb y x)) L).
Proof.
  induction L as [|y L IH]; simpl; auto.
  rewrite mem_app. simpl. rewrite orb_false_r.
  destruct (String.eqb y x) eqn:E; simpl.
  - rewrite orb_true_r. simpl. exact IH.
  - rewrite orb_false_r. destruct (mem y K); simpl; congruence.
Qed.

Lemma filter_known (K : list string) x (L : list string) :
  mem x K = true ->
  filter (fun y => negb (mem y K))
    (filter (fun y => negb (String.eqb y x)) L)
  = filter (fun y => negb (mem y K)) L.
Proof.
  intros Hx. induction L as [|y L IH]; simpl; auto.
  destruct (String.eqb_spec y x); simpl.
  - subst. now rewrite Hx.
  - now rewrite IH.
Qed.

Lemma keys_fill (f : string -> V) l d :
  keys (fill f l d)
  = (keys d ++ filter (fun y => negb (mem y (keys d))) (first_occurrences l))%list.
Proof.
  revert d. induction l as [|x l IH]; intros d.
  - simpl. now rewrite app_nil_r.
  - change (fill f (x :: l) d) with (fill f l (dict_set x (f x) d)).
    rewrite IH, keys_dict_set. simpl.
    destruct (mem x (keys d)) eqn:Ex; simpl.
    + now rewrite filter_known.
    + rewrite <- app_assoc. simpl. now rewrite filter_first_occurrence.
Qed.

Lemma keys_fill_nil (f : string -> V) l :
  keys (fill f l []) = first_occurrences l.
Proof.
  rewrite keys_fill. simpl.
  induction (first_occurrences l) as [|y L IH]; simpl; congruence.
Qed.

End DictFacts.

Lemma first_occurrences_In l x : In x (first_occurrences l) <-> In x l.
Proof.
  induction l as [|y l IH]; simpl; [tauto|].
  rewrite filter_In, IH. destruct (String.eqb_spec x y); simpl.
  - subst. tauto.
  - split.
    + intros [E | [H _]]; auto.
    + intros [E | H]; [now left | right; auto].
Qed.

Lemma NoDup_filter {A} (p : A -> bool) (l : list A) :
  NoDup l -> NoDup (filter p l).
Proof.
  induction 1 as [|x l Hx Hl IH]; simpl; [constructor|].
  destruct (p x); auto. constructor; auto.
  rewrite filter_In. tauto.
Qed.

Lemma first_occurrences_NoDup l : NoDup (first_occurrences l).
Proof.
  induction l as [|y l IH]; simpl; constructor.
  - rewrite filter_In. intros [_ H]. now rewrite String.eqb_refl in H.
  - now apply NoDup_filter.
Qed.

(** The loop of a tool whose body depends on the symbol alone. *)
Lemma for_each_symbol_fill (body : string -> list Fetch -> Val * list Fetch)
    (f : string -> Val) (g : string -> Fetch) :
  (forall s calls, body s calls = (f s, (calls ++ [g s])%list)) ->
  forall symbols,
    for_each_symbol body symbols = (fill f symbols [], map g symbols).
Proof.
  intros Hbody symbols. unfold for_each_symbol.
  enough (G : forall l d calls,
             fold_left
               (fun (st : LoopState) symbol =>
                  let '(results, calls) := st in
                  let '(v, calls) := body symbol calls in
                  (dict_set symbol v results, calls))
               l (d, calls)
             = (fill f l d, (calls ++ map g l)%list)) by apply G.
  induction l as [|s l IH]; intros d calls; simpl.
  - now rewrite app_nil_r.
  - rewrite Hbody, IH, <- app_assoc. reflexivity.
Qed.

(** ** Every valid call fills [results] symbol by symbol *)

#[local] Arguments mem : simpl never.
#[local] Arguments String.eqb : simpl never.
#[local] Arguments String.append : simpl never.

Section ToolFacts.

Variable quote_history :
  string -> string -> string -> string -> Exc (option DataFrame).
Variable company_shareholders : string -> Exc (option DataFrame).
Variable company_officers : string -> Exc (option DataFrame).
Variable company_subsidiaries : string -> Exc (option DataFrame).
Variable to_json : DataFrame -> Exc string.
Variable get_today : string.
Variable get_past_date : string.
Variable ta_rsi : Series -> Z -> option Series.
Variable round_none_column : Exc Series.

Local Notation invoke :=
  (invoke quote_history company_shareholders company_officers
     company_subsidiaries to_json get_today get_past_date ta_rsi
     round_none_column).
Local Notation symbol_value :=
  (symbol_value quote_history company_shareholders company_officers
     company_subsidiaries to_json get_today get_past_date ta_rsi
     round_none_column).
Local Notation symbol_fetch := (symbol_fetch get_today get_past_date).
Local Notation provider_answer :=
  (provider_answer quote_history company_shareholders company_officers
     company_subsidiaries).
Local Notation not_found_msg := (not_found_msg get_today get_past_date).
Local Notation is_error_of := (is_error_of get_today get_past_date).
Local Notation is_result_of := (is_result_of to_json get_today get_past_date).
Local Notation ohlcv_symbol := (ohlcv_symbol quote_history to_json).

Lemma with_time_idempotent columns : with_time (with_time columns) = with_time columns.
Proof.
  destruct columns as [[|c cs]|]; auto.
  set (cols := c :: cs).
  change (with_time (Some cols))
    with (Some (if negb (mem "time" cols) then "time" :: cols else cols)).
  destruct (mem "time" cols) eqn:E; cbn [negb].
  - subst cols. cbn [with_time]. now rewrite E.
  - cbn [with_time]. now rewrite mem_cons_same.
Qed.

Lemma ohlcv_symbol_step st en iv columns symbol calls :
  exists columns',
    ohlcv_symbol st en iv columns symbol calls
    = (fst (fst (ohlcv_symbol st en iv columns symbol [])), columns',
       (calls ++ [QuoteHistory symbol st en iv])%list)
    /\ (columns' = columns \/ columns' = with_time columns).
Proof.
  unfold Tools.ohlcv_symbol, history.
  destruct (quote_history symbol st en iv) as [e|[df|]]; simpl; eauto.
  destruct (empty df); simpl; eauto.
  destruct columns as [[|c cs]|]; simpl; eauto.
  rewrite andb_true_r.
  match goal with |- context [filter ?p ?l] => destruct (filter p l) end;
    simpl; eauto.
Qed.

Lemma ohlcv_value_with_time st en iv columns symbol :
  fst (fst (ohlcv_symbol st en iv (with_time columns) symbol []))
  = fst (fst (ohlcv_symbol st en iv columns symbol [])).
Proof.
  destruct columns as [[|c cs]|]; simpl; auto.
  unfold Tools.ohlcv_symbol, history.
  destruct (quote_history symbol st en iv) as [e|[df|]]; simpl; auto.
  destruct (empty df); simpl; auto.
  rewrite andb_true_r.
  destruct (mem "time" (c :: cs)) eqn:E; simpl.
  - now rewrite E.
  - reflexivity.
Qed.

Lemma ohlcv_loop st en iv columns0 symbols :
  forall d columns calls,
    columns = columns0 \/ columns = with_time columns0 ->
    exists columns',
      fold_left
        (fun (st' : dict Val * option (list string) * list Fetch) symbol =>
           let '(results, columns, calls) := st' in
           let '(v, columns, calls) :=
             ohlcv_symbol st en iv columns symbol calls in
           (dict_set symbol v results, columns, calls))
        symbols (d, columns, calls)
      = (fill (fun s => fst (fst (ohlcv_symbol st en iv columns0 s []))) symbols d,
         columns',
         (calls ++ map (fun s => QuoteHistory s st en iv) symbols)%list).
Proof.
  induction symbols as [|s l IH]; intros d columns calls Hc; simpl.
  - exists columns. now rewrite app_nil_r.
  - destruct (ohlcv_symbol_step st en iv columns s calls) as (c' & -> & Hc').
    assert (Hv : fst (fst (ohlcv_symbol st en iv columns s []))
                 = fst (fst (ohlcv_symbol st en iv columns0 s []))).
    { destruct Hc as [->| ->]; auto using ohlcv_value_with_time. }
    assert (Hnext : c' = columns0 \/ c' = with_time columns0).
    { destruct Hc as [->| ->], Hc' as [->| ->]; auto.
      right. apply with_time_idempotent. }
    destruct (IH (dict_set s (fst (fst (ohlcv_symbol st en iv columns s []))) d)
                c' (calls ++ [QuoteHistory s st en iv])%list Hnext)
      as (c'' & ->).
    exists c''. rewrite Hv, <- app_assoc. reflexivity.
Qed.

Lemma no_invalid_columns (cols : list string) :
  forallb (fun col => mem col available_columns) cols = true ->
  filter (fun col => negb (mem col available_columns)) cols = [].
Proof.
  induction cols as [|c cs IH]; simpl; auto.
  intros H. apply andb_prop in H as [Hc Hcs]. rewrite Hc. simpl. auto.
Qed.

Lemma first_nonpositive_none (periods : list Z) :
  forallb (fun p => (0 <? p)%Z) periods = true ->
  first_nonpositive periods = None.
Proof.
  induction periods as [|p ps IH]; simpl; auto.
  intros H. apply andb_prop in H as [Hp Hps].
  apply Z.ltb_lt in Hp. destruct (Z.leb_spec p 0); [lia | auto].
Qed.

(** A structurally valid call returns the dict filled with the value of
    each symbol, having issued one provider request per symbol, in order. *)
Lemma invoke_valid (call : ToolCall) :
  structurally_valid call = true ->
  invoke call
  = (Mapping (fill (symbol_value call) (call_symbols call) []),
     map (symbol_fetch call) (call_symbols call)).
Proof.
  unfold structurally_valid. intros H.
  apply andb_prop in H as [H Hperiods]. apply andb_prop in H as [Hint Hcols].
  destruct call as [symbols|symbols|symbols|symbols st en iv columns
                   |symbols st en iv|symbols st en iv period
                   |symbols st en iv period]; simpl in *.
  - unfold ViewShareholdersTool_run.
    now rewrite (for_each_symbol_fill _
                   (fun s => fst (shareholders_symbol company_shareholders
                                    to_json s []))
                   CompanyShareholders).
  - unfold ViewManagementTool_run.
    now rewrite (for_each_symbol_fill _
                   (fun s => fst (management_symbol company_officers
                                    to_json s []))
                   CompanyOfficers).
  - unfold ViewSubsidiariesTool_run.
    now rewrite (for_each_symbol_fill _
                   (fun s => fst (subsidiaries_symbol company_subsidiaries
                                    to_json s []))
                   CompanySubsidiaries).
  - unfold ViewOHLCVTool_run. rewrite Hint. simpl.
    assert (Hinv : match columns with
                   | Some ((_ :: _) as cols) =>
                       filter (fun col => negb (mem col available_columns)) cols
                   | _ => []
                   end = []).
    { destruct columns as [[|c cs]|]; auto. now apply no_invalid_columns. }
    rewrite Hinv.
    destruct (ohlcv_loop (default_arg st get_past_date)
                (default_arg en get_today) (default_arg iv "1D")
                columns symbols [] columns [] (or_introl eq_refl))
      as (c' & Hloop).
    match goal with
    | |- context [fold_left ?step symbols ?init] =>
        destruct (fold_left step symbols init) as [[results c0] calls] eqn:EF
    end.
    pose proof (eq_trans (eq_sym EF) Hloop) as E.
    injection E as -> _ ->. reflexivity.
  - unfold CalculateTotalVolumeTool_run. rewrite Hint. simpl.
    now rewrite (for_each_symbol_fill _
                   (fun s => fst (total_volume_symbol quote_history
                                    (default_arg st get_past_date)
                                    (default_arg en get_today)
                                    (default_arg iv "1D") s []))
                   (fun s => QuoteHistory s (default_arg st get_past_date)
                               (default_arg en get_today)
                               (default_arg iv "1D"))).
  - unfold CalculateSMATool_run. rewrite Hint. simpl.
    rewrite (first_nonpositive_none _ Hperiods).
    now rewrite (for_each_symbol_fill _
                   (fun s => fst (sma_symbol quote_history to_json
                                    round_none_column
                                    (default_arg st get_past_date)
                                    (default_arg en get_today)
                                    (default_arg iv "1D")
                                    (periods_of period) s []))
                   (fun s => QuoteHistory s (default_arg st get_past_date)
                               (default_arg en get_today)
                               (default_arg iv "1D"))).
  - unfold CalculateRSITool_run. rewrite Hint. simpl.
    rewrite andb_true_r in Hperiods. apply Z.ltb_lt in Hperiods.
    destruct (Z.leb_spec period 0); [lia|].
    now rewrite (for_each_symbol_fill _
                   (fun s => fst (rsi_symbol quote_history to_json ta_rsi
                                    round_none_column
                                    (default_arg st get_past_date)
                                    (default_arg en get_today)
                                    (default_arg iv "1D") period s []))
                   (fun s => QuoteHistory s (default_arg st get_past_date)
                               (default_arg en get_today)
                               (default_arg iv "1D"))).
Qed.

(** ** Requests rejected before any fetch *)

Lemma first_nonpositive_some (periods : list Z) q :
  first_nonpositive periods = Some q -> In q periods /\ (q <= 0)%Z.
Proof.
  induction periods as [|p ps IH]; simpl; [discriminate|].
  destruct (Z.leb_spec p 0).
  - intros [= <-]. auto.
  - intros Hq. destruct (IH Hq). auto.
Qed.

Lemma first_nonpositive_found (periods : list Z) p :
  In p periods -> (p <= 0)%Z -> exists q, first_nonpositive periods = Some q.
Proof.
  induction periods as [|p' ps IH]; simpl; [tauto|].
  intros [-> | Hin] Hp.
  - destruct (Z.leb_spec p 0); [eauto | lia].
  - destruct (Z.leb_spec p' 0); eauto.
Qed.

(** C4.  A call of a tool that takes an interval, with an interval outside
    the eight enumerated values, returns one message and no mapping: the
    message lists the eight valid intervals, and no provider request has
    been issued for any symbol. *)
Theorem invalid_interval_rejected (call : ToolCall) (interval : string) :
  call_interval call = Some interval ->
  mem interval valid_intervals = false ->
  invoke call = (Rejected invalid_interval_msg, [])
  /\ invalid_interval_msg
     = "Khung thời gian không hợp lệ. Các khung thời gian có sẵn: "
       ++ "1m, 5m, 15m, 30m, 1H, 1D, 1W, 1M"
  /\ valid_intervals = ["1m"; "5m"; "15m"; "30m"; "1H"; "1D"; "1W"; "1M"].
Proof.
  intros Hcall Hbad. split; [|split; reflexivity].
  destruct call; simpl in Hcall; try discriminate;
    injection Hcall as <-; simpl.
  - unfold ViewOHLCVTool_run. now rewrite Hbad.
  - unfold CalculateTotalVolumeTool_run. now rewrite Hbad.
  - unfold CalculateSMATool_run. now rewrite Hbad.
  - unfold CalculateRSITool_run. now rewrite Hbad.
Qed.

(** C3.  A call of the SMA or the RSI tool in which some requested period
    is not positive returns one message and no mapping, and no provider
    request has been issued for any symbol.  The message is the one about
    the interval when the interval is invalid too, and otherwise names a
    requested period that is not positive. *)
Theorem nonpositive_period_rejected (call : ToolCall) (periods : list Z)
    (p : Z) :
  call_periods call = Some periods ->
  In p periods ->
  (p <= 0)%Z ->
  exists msg,
    invoke call = (Rejected msg, [])
    /\ ((exists interval,
           call_interval call = Some interval
           /\ mem interval valid_intervals = false
           /\ msg = invalid_interval_msg)
        \/ (exists q,
              In q periods /\ (q <= 0)%Z
              /\ msg = nonpositive_period_msg call q)).
Proof.
  intros Hcall Hin Hp.
  destruct call as [| | | | |symbols st en iv period|symbols st en iv period];
    simpl in Hcall; try discriminate; injection Hcall as <-.
  - simpl. unfold CalculateSMATool_run.
    destruct (mem (default_arg iv "1D") valid_intervals) eqn:Hiv; simpl.
    + destruct (first_nonpositive_found _ _ Hin Hp) as (q & Hq).
      rewrite Hq. apply first_nonpositive_some in Hq as [Hq1 Hq2].
      eexists. split; [reflexivity|]. right. exists q. auto.
    + eexists. split; [reflexivity|]. left. eauto.
  - simpl. unfold CalculateRSITool_run.
    destruct (mem (default_arg iv "1D") valid_intervals) eqn:Hiv; simpl.
    + destruct Hin as [->|[]].
      destruct (Z.leb_spec p 0); [|lia].
      eexists. split; [reflexivity|]. right. exists p. simpl. auto.
    + eexists. split; [reflexivity|]. left. eauto.
Qed.

(** ** One entry per symbol, each on its own *)

Lemma structurally_valid_with_symbols call symbols :
  structurally_valid (with_symbols call symbols) = structurally_valid call.
Proof. now destruct call. Qed.

Lemma symbol_value_with_symbols call symbols s :
  symbol_value (with_symbols call symbols) s = symbol_value call s.
Proof. now destruct call. Qed.

Lemma call_symbols_with_symbols call symbols :
  call_symbols (with_symbols call symbols) = symbols.
Proof. now destruct call. Qed.

Ltac error_text :=
  right; right; eexists; split; [reflexivity|]; unfold PerSymbol.is_error_of;
  first [ left; reflexivity
        | right; left; eexists; split; reflexivity
        | right; right; left; reflexivity
        | right; right; right; eexists; reflexivity ].

Ltac json_text H :=
  right; left; eexists _, _; split; [exact H | reflexivity].

(** What a call stores for a symbol is an integer, the JSON text of a
    frame, or one of the error texts of that symbol. *)
Lemma symbol_value_is_result call s : is_result_of call s (symbol_value call s).
Proof.
  unfold PerSymbol.is_result_of.
  destruct call as [symbols|symbols|symbols|symbols st en iv columns
                   |symbols st en iv|symbols st en iv period
                   |symbols st en iv period]; simpl.
  - unfold shareholders_symbol, shareholders, facet_records; simpl.
    destruct (company_shareholders s) as [e|[df|]]; simpl; try error_text.
    destruct (empty df); simpl; try error_text.
    destruct (to_json df) as [e|js] eqn:J; simpl; [error_text | json_text J].
  - unfold management_symbol, officers, facet_records; simpl.
    destruct (company_officers s) as [e|[df|]]; simpl; try error_text.
    destruct (empty df); simpl; try error_text.
    destruct (to_json df) as [e|js] eqn:J; simpl; [error_text | json_text J].
  - unfold subsidiaries_symbol, subsidiaries, facet_records; simpl.
    destruct (company_subsidiaries s) as [e|[df|]]; simpl; try error_text.
    destruct (empty df); simpl; try error_text.
    destruct (to_json df) as [e|js] eqn:J; simpl; [error_text | json_text J].
  - unfold Tools.ohlcv_symbol, history, ohlcv_error; simpl.
    destruct (quote_history s _ _ _) as [e|[df|]]; simpl; try error_text.
    destruct (empty df); simpl; try error_text.
    destruct columns as [[|c cs]|]; simpl.
    + destruct (to_json df) as [e|js] eqn:J; simpl; [error_text | json_text J].
    + match goal with |- context [filter ?p ?l] => destruct (filter p l) end;
        simpl; try error_text.
      match goal with |- context [getitems ?d ?l] => destruct (getitems d l) as [e|df'] end;
        simpl; try error_text.
      destruct (to_json df') as [e|js] eqn:J; simpl; [error_text | json_text J].
    + destruct (to_json df) as [e|js] eqn:J; simpl; [error_text | json_text J].
  - unfold total_volume_symbol, history; simpl.
    destruct (quote_history s _ _ _) as [e|[df|]]; simpl; try error_text.
    destruct (empty df); simpl; try error_text.
    destruct (has_column "volume" df); simpl; try error_text.
    destruct (getitem df "volume") as [e|col]; simpl; try error_text.
    left. eexists. reflexivity.
  - unfold sma_symbol, history; simpl.
    destruct (quote_history s _ _ _) as [e|[df|]]; simpl; try error_text.
    destruct (empty df); simpl; try error_text.
    destruct (has_column "close" df); simpl; try error_text.
    destruct (add_sma_columns _ _ df) as [e|df']; simpl; try error_text.
    destruct (to_json df') as [e|js] eqn:J; simpl; [error_text | json_text J].
  - unfold rsi_symbol, history; simpl.
    destruct (quote_history s _ _ _) as [e|[df|]]; simpl; try error_text.
    destruct (empty df); simpl; try error_text.
    destruct (has_column "close" df); simpl; try error_text.
    destruct (getitem df "close") as [e|close]; simpl; try error_text.
    destruct (assign_rounded _ _ _ _) as [e|df']; simpl; try error_text.
    destruct (to_json df') as [e|js] eqn:J; simpl; [error_text | json_text J].
Qed.

(** C9.  A call that passes structural validation returns a mapping whose
    keys are the distinct input symbols in the order of their first
    occurrence: every input symbol has an entry, no other key appears, and
    each entry holds a success value (an integer or a JSON text) or an
    error text of its symbol. *)
Theorem one_entry_per_symbol (call : ToolCall) :
  structurally_valid call = true ->
  exists results,
    fst (invoke call) = Mapping results
    /\ keys results = first_occurrences (call_symbols call)
    /\ NoDup (keys results)
    /\ (forall k, In k (keys results) <-> In k (call_symbols call))
    /\ (forall s, In s (call_symbols call) ->
          exists v, dict_get s results = Some v /\ is_result_of call s v).
Proof.
  intros Hvalid. rewrite (invoke_valid call Hvalid). simpl.
  eexists. split; [reflexivity|].
  rewrite keys_fill_nil.
  split; [reflexivity|]. split; [apply first_occurrences_NoDup|].
  split; [intros k; apply first_occurrences_In|].
  intros s Hs. exists (symbol_value call s). split.
  - rewrite dict_get_fill. apply mem_In in Hs. now rewrite Hs.
  - apply symbol_value_is_result.
Qed.

(** ** What the value of a symbol is, case by case *)

Lemma value_of_exception call s e :
  provider_answer (symbol_fetch call s) = Raise e ->
  symbol_value call s = VStr (exception_msg call s e).
Proof.
  destruct call; simpl; intros H;
    unfold shareholders_symbol, management_symbol, subsidiaries_symbol,
      Tools.ohlcv_symbol, total_volume_symbol, sma_symbol, rsi_symbol,
      shareholders, officers, subsidiaries, history; simpl;
    unfold start_of, end_of, interval_of in *; now rewrite H.
Qed.

Lemma value_of_no_data call s :
  provider_answer (symbol_fetch call s) = Ret None ->
  symbol_value call s = VStr (not_found_msg call s).
Proof.
  destruct call; simpl; intros H;
    unfold shareholders_symbol, management_symbol, subsidiaries_symbol,
      Tools.ohlcv_symbol, total_volume_symbol, sma_symbol, rsi_symbol,
      shareholders, officers, subsidiaries, history; simpl;
    unfold start_of, end_of, interval_of in *; now rewrite H.
Qed.

Lemma value_of_empty_data call s df :
  provider_answer (symbol_fetch call s) = Ret (Some df) ->
  empty df = true ->
  symbol_value call s = VStr (not_found_msg call s).
Proof.
  destruct call; simpl; intros H He;
    unfold shareholders_symbol, management_symbol, subsidiaries_symbol,
      Tools.ohlcv_symbol, total_volume_symbol, sma_symbol, rsi_symbol,
      shareholders, officers, subsidiaries, history; simpl;
    unfold start_of, end_of, interval_of in *; rewrite H; simpl;
    now rewrite He.
Qed.

Lemma value_of_missing_field call s df field :
  provider_answer (symbol_fetch call s) = Ret (Some df) ->
  empty df = false ->
  expected_field call = Some field ->
  has_column field df = false ->
  symbol_value call s = VStr (missing_field_msg field s).
Proof.
  destruct call; simpl; intros H He Hf Hc; try discriminate;
    injection Hf as <-;
    unfold total_volume_symbol, sma_symbol, rsi_symbol, history; simpl;
    unfold start_of, end_of, interval_of in *; rewrite H; simpl;
    rewrite He, Hc; reflexivity.
Qed.

Lemma value_of_records call s df js :
  provider_answer (symbol_fetch call s) = Ret (Some df) ->
  empty df = false ->
  serializes_fetched call = true ->
  to_json df = Ret js ->
  symbol_value call s = VStr js.
Proof.
  destruct call as [| | |symbols st en iv columns| | |]; simpl;
    intros H He Hp J; try discriminate;
    unfold shareholders_symbol, management_symbol, subsidiaries_symbol,
      Tools.ohlcv_symbol, shareholders, officers, subsidiaries, history,
      facet_records; simpl;
    unfold start_of, end_of, interval_of in *; rewrite H; simpl;
    rewrite He.
  1-3: now rewrite J.
  destruct columns as [[|c cs]|]; simpl in Hp; try discriminate;
    now rewrite J.
Qed.

(** C2, as the tools do it.  A structurally valid call issues one provider
    request per symbol
    and returns a mapping in which the entry of every symbol is the one a
    call for that symbol alone returns.  A provider exception, missing or
    empty data, and a missing expected field each give the error text of
    that symbol; a symbol with data, in a tool that serializes the fetched
    frame, gets its record list, whatever happened to the other symbols. *)
Theorem per_symbol_isolation (call : ToolCall) :
  structurally_valid call = true ->
  exists results,
    invoke call
    = (Mapping results, map (symbol_fetch call) (call_symbols call))
    /\ forall s, In s (call_symbols call) ->
         (exists alone,
             fst (invoke (with_symbols call [s])) = Mapping alone
             /\ dict_get s results = dict_get s alone)
         /\ dict_get s results = Some (symbol_value call s)
         /\ (forall e,
               provider_answer (symbol_fetch call s) = Raise e ->
               dict_get s results = Some (VStr (exception_msg call s e)))
         /\ (provider_answer (symbol_fetch call s) = Ret None ->
             dict_get s results = Some (VStr (not_found_msg call s)))
         /\ (forall df,
               provider_answer (symbol_fetch call s) = Ret (Some df) ->
               (empty df = true ->
                dict_get s results = Some (VStr (not_found_msg call s)))
               /\ (forall field,
                     empty df = false ->
                     expected_field call = Some field ->
                     has_column field df = false ->
                     dict_get s results
                     = Some (VStr (missing_field_msg field s)))
               /\ (forall js,
                     empty df = false ->
                     serializes_fetched call = true ->
                     to_json df = Ret js ->
                     dict_get s results = Some (VStr js))).
Proof.
  intros Hvalid. rewrite (invoke_valid call Hvalid).
  eexists. split; [reflexivity|]. intros s Hs.
  assert (Hget : dict_get s (fill (symbol_value call) (call_symbols call) [])
                 = Some (symbol_value call s)).
  { rewrite dict_get_fill. apply mem_In in Hs. now rewrite Hs. }
  rewrite Hget. repeat split.
  - rewrite invoke_valid
      by now rewrite structurally_valid_with_symbols.
    rewrite call_symbols_with_symbols. eexists. split; [reflexivity|].
    unfold fill; simpl. rewrite String.eqb_refl.
    now rewrite symbol_value_with_symbols.
  - intros e He. f_equal. now apply value_of_exception.
  - intros Hn. f_equal. now apply value_of_no_data.
  - intros Hempty. f_equal. eapply value_of_empty_data; eauto.
  - intros field He Hf Hc. f_equal. eapply value_of_missing_field; eauto.
  - intros js He Hp J. f_equal. eapply value_of_records; eauto.
Qed.

(** ** Total volume *)

Lemma wrap_int64_small (z : Z) :
  (int64_min <= z <= int64_max)%Z -> wrap_int64 z = z.
Proof.
  unfold wrap_int64, int64_min, int64_max. intros Hz.
  rewrite Z.mod_small; lia.
Qed.

Lemma wrap_int64_add (a c : Z) :
  wrap_int64 (wrap_int64 a + c) = wrap_int64 (a + c).
Proof.
  unfold wrap_int64. f_equal.
  replace ((a + 2 ^ 63) mod 2 ^ 64 - 2 ^ 63 + c + 2 ^ 63)%Z
    with ((a + 2 ^ 63) mod 2 ^ 64 + c)%Z by lia.
  rewrite Zplus_mod_idemp_l. f_equal. lia.
Qed.

(** Wrapping at every addition gives the exact sum wrapped once. *)
Lemma int64_sum_wraps (l : list Z) :
  int64_sum l = wrap_int64 (fold_right Z.add 0%Z l).
Proof.
  unfold int64_sum.
  enough (G : forall l a,
             fold_left (fun acc z => wrap_int64 (acc + z)) l (wrap_int64 a)
             = wrap_int64 (a + fold_right Z.add 0%Z l)).
  { exact (G l 0%Z). }
  clear l. induction l as [|z l IH]; intros a; cbn [fold_left fold_right].
  - now rewrite Z.add_0_r.
  - rewrite wrap_int64_add, IH. f_equal. lia.
Qed.

Lemma int64_values_integers (volumes : list Z) :
  Forall (fun v => (int64_min <= v <= int64_max)%Z) volumes ->
  int64_values (map (fun v => Some (inject_Z v)) volumes) = Some volumes.
Proof.
  induction 1 as [|v vs Hv _ IH]; cbn [map int64_values]; [reflexivity|].
  cbn [inject_Z Qden Qnum]. rewrite Pos.eqb_refl, IH.
  destruct (Z.leb_spec int64_min v); [|lia].
  destruct (Z.leb_spec v int64_max); [|lia].
  reflexivity.
Qed.

Lemma int_of_integer (z : Z) : int_of (inject_Z z) = z.
Proof. unfold int_of, inject_Z. simpl. apply Z.quot_1_r. Qed.

(** C8, as the code computes it.  In a call of the total-volume tool with a
    valid interval, a symbol whose fetch gives a non-empty frame with a
    column of integer volumes gets their sum in signed 64-bit arithmetic,
    stored as an integer and not as a text: the sum of the volumes of all
    fetched bars when that sum is in the range of 64 bits, and that sum
    wrapped around otherwise. *)
Theorem total_volume_int64_sum (symbols : list string)
    (start end_ interval : option string) (s : string) (df : DataFrame)
    (volumes : list Z) :
  mem (interval_of interval) valid_intervals = true ->
  In s symbols ->
  quote_history s (start_of get_past_date start) (end_of get_today end_)
    (interval_of interval) = Ret (Some df) ->
  empty df = false ->
  Forall (fun v => (int64_min <= v <= int64_max)%Z) volumes ->
  dict_get "volume" (columns df)
  = Some (map (fun v => Some (inject_Z v)) volumes) ->
  exists results,
    fst (CalculateTotalVolumeTool_run quote_history get_today get_past_date
           symbols start end_ interval) = Mapping results
    /\ dict_get s results
       = Some (VInt (wrap_int64 (fold_right Z.add 0%Z volumes)))
    /\ ((int64_min <= fold_right Z.add 0%Z volumes <= int64_max)%Z ->
        dict_get s results = Some (VInt (fold_right Z.add 0%Z volumes))).
Proof.
  intros Hiv Hs Hfetch Hne Hrange Hvol.
  pose (call := calculate_total_volume symbols start end_ interval).
  assert (Hvalid : structurally_valid call = true).
  { unfold structurally_valid. simpl. unfold interval_of in Hiv.
    now rewrite Hiv. }
  pose proof (invoke_valid call Hvalid) as Hrun. simpl in Hrun.
  rewrite Hrun. eexists. split; [reflexivity|].
  assert (Hget : dict_get s (fill (symbol_value call) symbols [])
                 = Some (VInt (wrap_int64 (fold_right Z.add 0%Z volumes)))).
  { rewrite dict_get_fill. apply mem_In in Hs. rewrite Hs. f_equal.
    unfold call. cbn [PerSymbol.symbol_value].
    unfold total_volume_symbol, history. cbn [fst].
    unfold start_of, end_of, interval_of in *. rewrite Hfetch.
    cbn [bind try_except]. rewrite Hne.
    assert (Hcol : has_column "volume" df = true).
    { unfold has_column. apply dict_get_mem. eauto. }
    rewrite Hcol. cbn [negb]. unfold getitem. rewrite Hvol.
    cbn [bind try_except]. unfold series_sum.
    rewrite (int64_values_integers _ Hrange).
    now rewrite int_of_integer, int64_sum_wraps. }
  split; [exact Hget|].
  intros Hsum. rewrite Hget. now rewrite wrap_int64_small.
Qed.

(** ** The price view with requested columns *)

Lemma filter_none {A} (p : A -> bool) (l : list A) :
  (forall x, In x l -> p x = false) -> filter p l = [].
Proof.
  induction l as [|x l IH]; simpl; auto.
  intros H. rewrite (H x) by auto. auto.
Qed.

(** C10.  In a call of the price view that requests a non-empty list of
    valid columns, a symbol whose fetched frame has none of the requested
    columns, nor the time column put in front of them, gets an error text
    and not a record list; every symbol of the call is fetched and gets
    its own value. *)
Theorem no_requested_column_is_error (symbols : list string)
    (start end_ interval : option string) (cols : list string) (s : string)
    (df : DataFrame) :
  mem (interval_of interval) valid_intervals = true ->
  cols <> [] ->
  forallb (fun col => mem col available_columns) cols = true ->
  In s symbols ->
  quote_history s (start_of get_past_date start) (end_of get_today end_)
    (interval_of interval) = Ret (Some df) ->
  (forall col, In col ("time" :: cols) -> has_column col df = false) ->
  exists results,
    ViewOHLCVTool_run quote_history to_json get_today get_past_date
      symbols start end_ interval (Some cols)
    = (Mapping results,
       map (symbol_fetch (view_ohlcv symbols start end_ interval (Some cols)))
         symbols)
    /\ dict_get s results
       = Some (VStr (if empty df
                     then no_ohlcv_msg s (start_of get_past_date start)
                            (end_of get_today end_) (interval_of interval)
                     else no_columns_msg s))
    /\ forall s', In s' symbols ->
         dict_get s' results
         = Some (symbol_value
                   (view_ohlcv symbols start end_ interval (Some cols)) s').
Proof.
  intros Hiv Hne Hcols Hs Hfetch Hnone.
  pose (call := view_ohlcv symbols start end_ interval (Some cols)).
  assert (Hvalid : structurally_valid call = true).
  { unfold structurally_valid. simpl. unfold interval_of in Hiv.
    now rewrite Hiv, Hcols. }
  pose proof (invoke_valid call Hvalid) as Hrun. simpl in Hrun.
  rewrite Hrun. eexists. split; [reflexivity|].
  assert (Hall : forall s', In s' symbols ->
            dict_get s' (fill (symbol_value call) symbols [])
            = Some (symbol_value call s')).
  { intros s' Hs'. rewrite dict_get_fill. apply mem_In in Hs'.
    now rewrite Hs'. }
  split; [|exact Hall].
  rewrite (Hall s Hs). f_equal. simpl.
  unfold Tools.ohlcv_symbol, history; simpl.
  unfold start_of, end_of, interval_of in *. rewrite Hfetch. simpl.
  destruct (empty df); [reflexivity|].
  destruct cols as [|c cs]; [congruence|].
  cbv zeta. rewrite filter_none; [reflexivity|].
  intros col Hcol. apply Hnone.
  destruct (negb (mem "time" (c :: cs)) && (0 <? Datatypes.length (c :: cs))%nat);
    [exact Hcol | now right].
Qed.

(** ** Rounding to two decimals *)

Lemma round_half_even_nearest (q : Q) :
  Qabs (inject_Z (round_half_even q) - q) <= 1 # 2.
Proof.
  unfold round_half_even.
  pose proof (Qfloor_le q) as Hle. pose proof (Qlt_floor q) as Hlt.
  rewrite inject_Z_plus in Hlt. change (inject_Z 1) with 1 in Hlt.
  apply Qabs_Qle_condition.
  destruct (Qcompare_spec (q - inject_Z (Qfloor q)) (1 # 2)) as [E|E|E].
  - destruct (Z.even (Qfloor q));
      [|rewrite inject_Z_plus; change (inject_Z 1) with 1]; lra.
  - lra.
  - rewrite inject_Z_plus. change (inject_Z 1) with 1. lra.
Qed.

(** [round2 q] is a number of hundredths, at most half a hundredth away
    from [q]. *)
Lemma round2_hundredths (q : Q) : exists z, round2 q = z # 100.
Proof. unfold round2. eauto. Qed.

Lemma round2_nearest (q : Q) : Qabs (round2 q - q) <= 1 # 200.
Proof.
  unfold round2.
  pose proof (round_half_even_nearest (q * 100)) as H.
  apply Qabs_Qle_condition in H. apply Qabs_Qle_condition.
  rewrite (Qmake_Qdiv (round_half_even (q * 100)) 100).
  set (r := inject_Z (round_half_even (q * 100))) in *.
  unfold Qdiv. change (/ inject_Z (Z.pos 100)) with (1 # 100).
  lra.
Qed.

(** ** The moving average *)

Lemma append_inj_l (a x y : string) : a ++ x = a ++ y -> x = y.
Proof.
  induction a as [|c a IH]; [auto|].
  change (String c (a ++ x) = String c (a ++ y) -> x = y).
  intros [= H]. auto.
Qed.

Lemma str_of_int_inj (a b : Z) : str_of_int a = str_of_int b -> a = b.
Proof.
  unfold str_of_int. intros H. apply DecimalZ.to_int_inj.
  apply (f_equal NilEmpty.int_of_string) in H.
  rewrite !NilEmpty.isi in H. now injection H.
Qed.

Lemma sma_column_name_inj (p q : Z) :
  sma_column_name p = sma_column_name q -> p = q.
Proof.
  unfold sma_column_name. intros H.
  now apply append_inj_l, str_of_int_inj in H.
Qed.

Lemma sma_column_name_not_close (p : Z) : sma_column_name p <> "close".
Proof.
  change (sma_column_name p) with (String "S" ("MA_" ++ str_of_int p)).
  discriminate.
Qed.

Lemma all_values_defined (l : list Q) : Ta.all_values (map Some l) = Some l.
Proof. induction l as [|q l IH]; simpl; [|rewrite IH]; reflexivity. Qed.

Lemma skipn_nth_cons {A} (d : A) (l : list A) (a : nat) :
  (a < List.length l)%nat -> skipn a l = nth a l d :: skipn (S a) l.
Proof.
  revert a. induction l as [|x l IH]; intros a Ha; simpl in Ha; [lia|].
  destruct a as [|a]; [reflexivity|].
  cbn [skipn nth]. apply IH. lia.
Qed.

Lemma window_indices {A} (d : A) (l : list A) (p a : nat) :
  (a + p <= List.length l)%nat ->
  firstn p (skipn a l) = map (fun k => nth k l d) (seq a p).
Proof.
  revert a. induction p as [|p IH]; intros a Ha; [reflexivity|].
  rewrite (skipn_nth_cons d) by lia.
  cbn [firstn seq map]. f_equal. apply IH. lia.
Qed.

(** The moving average of fully defined closes, row by row. *)
Lemma rolling_mean_at_defined (closes : list Q) (p i : nat) :
  (i < List.length closes)%nat ->
  Ta.rolling_mean_at (map Some closes) p i
  = if (i + 1 <? p)%nat then None
    else Some (Ta.mean p (map (fun k => nth k closes 0) (seq (i + 1 - p) p))).
Proof.
  intros Hi. unfold Ta.rolling_mean_at, Ta.window.
  destruct (Nat.ltb_spec (i + 1) p); [reflexivity|].
  rewrite skipn_map, firstn_map, all_values_defined. simpl.
  now rewrite (window_indices 0) by lia.
Qed.

(** The column the SMA tool stores for the period [p]. *)
Lemma sma_defined (closes : list Q) (p : Z) :
  (0 < p <= Z.of_nat (List.length closes))%Z ->
  Ta.sma (map Some closes) p
  = Some (map (Ta.rolling_mean_at (map Some closes) (Z.to_nat p))
            (seq 0 (List.length closes))).
Proof.
  intros Hp. unfold Ta.sma. rewrite length_map.
  destruct (Z.ltb_spec 0 p); [|lia].
  destruct (Nat.ltb_spec (List.length closes) (Z.to_nat p)); [lia|].
  reflexivity.
Qed.

Lemma assign_rounded_sma (df : DataFrame) (closes : list Q) (p : Z) :
  (0 < p <= Z.of_nat (List.length closes))%Z ->
  assign_rounded round_none_column df (sma_column_name p)
    (Ta.sma (map Some closes) p)
  = Ret (setitem (setitem df (sma_column_name p)
                    (map (Ta.rolling_mean_at (map Some closes) (Z.to_nat p))
                       (seq 0 (List.length closes))))
           (sma_column_name p)
           (rounded_sma closes p)).
Proof.
  intros Hp. rewrite sma_defined by exact Hp.
  unfold assign_rounded, getitem. simpl.
  now rewrite dict_get_set_same.
Qed.

Lemma add_sma_columns_spec (closes : list Q) (periods : list Z) :
  Forall (fun p => (0 < p <= Z.of_nat (List.length closes))%Z) periods ->
  forall df,
    dict_get "close" (columns df) = Some (map Some closes) ->
    exists df',
      add_sma_columns round_none_column periods df = Ret df'
      /\ index_len df' = index_len df
      /\ (forall p, In p periods ->
            dict_get (sma_column_name p) (columns df')
            = Some (rounded_sma closes p))
      /\ (forall name, ~ In name (map sma_column_name periods) ->
            dict_get name (columns df') = dict_get name (columns df)).
Proof.
  induction 1 as [|p ps Hp Hps IH]; intros df Hclose.
  - exists df. simpl. repeat split; tauto.
  - cbn [add_sma_columns]. unfold getitem at 1. rewrite Hclose.
    cbn [bind]. rewrite assign_rounded_sma by exact Hp. cbn [bind].
    set (df1 := setitem (setitem df _ _) _ _).
    assert (Hother : forall name, name <> sma_column_name p ->
              dict_get name (columns df1) = dict_get name (columns df)).
    { intros name Hn. subst df1. simpl.
      now rewrite !dict_get_set_other by exact Hn. }
    assert (Hclose1 : dict_get "close" (columns df1) = Some (map Some closes)).
    { rewrite Hother; auto. intros E. symmetry in E.
      now apply sma_column_name_not_close in E. }
    destruct (IH df1 Hclose1) as (df' & Hrun & Hlen & Hcols & Hrest).
    exists df'. split; [exact Hrun|]. split; [exact Hlen|]. split.
    + intros q [<-|Hq]; [|now apply Hcols].
      destruct (in_dec Z.eq_dec p ps) as [Hin|Hnot]; [now apply Hcols|].
      rewrite Hrest.
      * subst df1. simpl. apply dict_get_set_same.
      * rewrite in_map_iff. intros (q & E & Hq).
        apply sma_column_name_inj in E. congruence.
    + intros name Hn. cbn [map In] in Hn.
      rewrite Hrest by tauto. apply Hother. intros E. apply Hn. now left.
Qed.

Lemma rounded_sma_entries (closes : list Q) (p : Z) :
  List.length (rounded_sma closes p) = List.length closes
  /\ forall i, (i < List.length closes)%nat ->
       nth_error (rounded_sma closes p) i
       = Some (if (i + 1 <? Z.to_nat p)%nat then None
               else Some (round2
                            (Ta.mean (Z.to_nat p)
                               (map (fun k => nth k closes 0)
                                  (seq (i + 1 - Z.to_nat p) (Z.to_nat p)))))).
Proof.
  unfold rounded_sma, round_series. split.
  - now rewrite !length_map, length_seq.
  - intros i Hi. rewrite !nth_error_map, nth_error_seq.
    apply Nat.ltb_lt in Hi. rewrite Hi. simpl.
    apply Nat.ltb_lt in Hi. rewrite rolling_mean_at_defined by exact Hi.
    now destruct (i + 1 <? Z.to_nat p)%nat.
Qed.

(** C1, for requested periods that all fit.  In a call of the SMA tool with
    a valid interval in which every requested period [p] has [1 <= p <= n],
    a symbol whose fetch gives [n >= 1] bars with defined closes
    gets the serialized frame with the same [n] rows and, for each requested
    period [p], a column named [SMA_p] of [n] entries: the entry of row [i]
    is null for [i < p-1], and otherwise the mean of the closes of rows
    [i-p+1 .. i] rounded to 2 decimals. *)
Theorem sma_columns (symbols : list string)
    (start end_ interval : option string) (period : PeriodArg) (s : string)
    (df : DataFrame) (closes : list Q) :
  mem (interval_of interval) valid_intervals = true ->
  Forall (fun p => (1 <= p <= Z.of_nat (List.length closes))%Z)
    (periods_of period) ->
  In s symbols ->
  quote_history s (start_of get_past_date start) (end_of get_today end_)
    (interval_of interval) = Ret (Some df) ->
  closes <> [] ->
  index_len df = List.length closes ->
  dict_get "close" (columns df) = Some (map Some closes) ->
  exists results df',
    fst (CalculateSMATool_run quote_history to_json get_today get_past_date
           round_none_column symbols start end_ interval period)
    = Mapping results
    /\ add_sma_columns round_none_column (periods_of period) df = Ret df'
    /\ dict_get s results
       = Some (VStr match to_json df' with
                    | Ret js => js
                    | Raise e =>
                        exception_msg
                          (calculate_sma symbols start end_ interval period)
                          s e
                    end)
    /\ index_len df' = List.length closes
    /\ forall p, In p (periods_of period) ->
         exists col,
           dict_get ("SMA_" ++ str_of_int p) (columns df') = Some col
           /\ List.length col = List.length closes
           /\ forall i, (i < List.length closes)%nat ->
                nth_error col i
                = Some (if (i + 1 <? Z.to_nat p)%nat then None
                        else Some (round2
                                     (Ta.mean (Z.to_nat p)
                                        (map (fun k => nth k closes 0)
                                           (seq (i + 1 - Z.to_nat p)
                                              (Z.to_nat p)))))).
Proof.
  intros Hiv Hperiods Hs Hfetch Hbars Hn Hclose.
  assert (Hpos : Forall (fun p => (0 < p <= Z.of_nat (List.length closes))%Z)
                   (periods_of period)).
  { eapply Forall_impl; [|exact Hperiods]. simpl. intros; lia. }
  destruct (add_sma_columns_spec closes _ Hpos df Hclose)
    as (df' & Hrun & Hlen & Hcols & _).
  pose (call := calculate_sma symbols start end_ interval period).
  assert (Hvalid : structurally_valid call = true).
  { unfold structurally_valid. simpl. unfold interval_of in Hiv.
    rewrite Hiv. simpl. apply forallb_forall. intros p Hp.
    rewrite Forall_forall in Hpos. apply Z.ltb_lt. now apply Hpos. }
  pose proof (invoke_valid call Hvalid) as Hinvoke. simpl in Hinvoke.
  rewrite Hinvoke. exists (fill (symbol_value call) symbols []), df'.
  split; [reflexivity|]. split; [exact Hrun|]. split; [|split].
  - rewrite dict_get_fill. apply mem_In in Hs. rewrite Hs. f_equal. simpl.
    unfold sma_symbol, history; simpl.
    unfold start_of, end_of, interval_of in *. rewrite Hfetch. simpl.
    assert (Hne : empty df = false).
    { unfold empty. rewrite Hn.
      destruct (columns df); [discriminate|].
      now destruct closes. }
    assert (Hcol : has_column "close" df = true).
    { unfold has_column. apply dict_get_mem. eauto. }
    rewrite Hne, Hcol. simpl. rewrite Hrun. simpl.
    now destruct (to_json df').
  - congruence.
  - intros p Hp. exists (rounded_sma closes p).
    split; [now apply Hcols|]. apply rounded_sma_entries.
Qed.

End ToolFacts.

(** Scenario C: the price tool called with the interval 2D. *)
Lemma invalid_interval_rejected_witness :
  Scenario.invoke (view_ohlcv ["VCB"; "FPT"] None None (Some "2D") None)
  = (Rejected ("Khung thời gian không hợp lệ. Các khung thời gian có sẵn: "
               ++ "1m, 5m, 15m, 30m, 1H, 1D, 1W, 1M"), []).
Proof.
  exact (proj1 (invalid_interval_rejected
                  Scenario.quote_history Scenario.company Scenario.company
                  Scenario.company Scenario.to_json "2026-11-04" "2026-10-05"
                  Scenario.ta_rsi Scenario.round_none_column
                  (view_ohlcv ["VCB"; "FPT"] None None (Some "2D") None)
                  "2D" eq_refl eq_refl)).
Defined.

(** The SMA tool called with the periods 9 and 0. *)
Lemma nonpositive_period_rejected_witness :
  exists msg,
    Scenario.invoke
      (calculate_sma ["VCB"; "FPT"] None None None (PList [9; 0]%Z))
    = (Rejected msg, [])
    /\ msg = "Chu kỳ SMA phải là số dương. Giá trị nhận được: 0".
Proof.
  destruct (nonpositive_period_rejected
              Scenario.quote_history Scenario.company Scenario.company
              Scenario.company Scenario.to_json "2026-11-04" "2026-10-05"
              Scenario.ta_rsi Scenario.round_none_column
              (calculate_sma ["VCB"; "FPT"] None None None (PList [9; 0]%Z))
              [9; 0]%Z 0%Z eq_refl (or_intror (or_introl eq_refl))
              (Z.le_refl 0))
    as (msg & H & _).
  exists msg. split; [exact H|].
  vm_compute in H. now injection H.
Defined.

(** ** The agent's tool set *)

(** C7.  In the tool set of the agent, the tools with [return_direct] set
    are exactly the price view, the SMA and the RSI tools, and those with
    [return_direct] unset are exactly the management, shareholders,
    subsidiaries and total-volume tools. *)
Theorem return_direct_assignment :
  map Agent.name
    (filter Agent.return_direct Agent.create_finance_agent_tools)
  = ["view_ohlcv"; "calculate_sma"; "calculate_rsi"]
  /\ map Agent.name
       (filter (fun t => negb (Agent.return_direct t))
          Agent.create_finance_agent_tools)
     = ["view_management"; "view_shareholders"; "view_subsidiaries";
        "calculate_total_volume"].
Proof. split; reflexivity. Qed.

(* ================================================================== *)
(** ** The request handler *)

Import Orchestrator.

Lemma append_assoc (a b c : string) : (a ++ b) ++ c = a ++ b ++ c.
Proof.
  induction a as [|x a IH]; [reflexivity|].
  change (String x ((a ++ b) ++ c) = String x (a ++ b ++ c)). now rewrite IH.
Qed.

Lemma append_empty_r (a : string) : a ++ EmptyString = a.
Proof.
  induction a as [|x a IH]; [reflexivity|].
  change (String x (a ++ EmptyString) = String x a). now rewrite IH.
Qed.

Lemma append_empty_l (a : string) : EmptyString ++ a = a.
Proof. reflexivity. Qed.

Lemma format_results_blocks (results : list AgentResult) :
  forall i formatted_results,
    format_results i results formatted_results
    = formatted_results ++ result_blocks i (map get_output results).
Proof.
  induction results as [|r rs IH]; intros i acc; cbn [format_results map result_blocks].
  - now rewrite append_empty_r.
  - rewrite IH, append_assoc. reflexivity.
Qed.

Lemma stamp_all_stamped (symbol : string) (records rows : list Json) :
  stamp_all symbol records = Ret rows ->
  Forall (fun row => exists kv, row = JObj kv
                                /\ dict_get "symbol" kv = Some (JStr symbol))
    rows.
Proof.
  revert rows. induction records as [|r rs IH]; intros rows; cbn [stamp_all].
  - intros [= <-]. constructor.
  - destruct r; cbn [set_symbol bind]; try discriminate.
    destruct (stamp_all symbol rs) as [e|rest]; cbn [bind]; [discriminate|].
    intros [= <-]. constructor; [|now apply IH].
    eexists. split; [reflexivity|]. apply dict_get_set_same.
Qed.

Section HandlerFacts.

Variable classifier_chain : string -> Exc QueryClassification.
Variable decompose_complex_query : string -> Exc (list string).
Variable agent : string -> Exc AgentResult.
Variable combine_chain : string -> string -> Exc string.
Variable json_loads : string -> Exc Json.
Variable Table : Type.
Variable pd_DataFrame : list Json -> Exc Table.
Variable time_to_datetime : Table -> Exc Table.
Variable to_string : Table -> Exc string.

Local Notation collect_rows := (collect_rows json_loads).
Local Notation table_answer :=
  (table_answer json_loads Table pd_DataFrame time_to_datetime to_string).
Local Notation extract_answer :=
  (extract_answer json_loads Table pd_DataFrame time_to_datetime to_string).
Local Notation invoke_each := (invoke_each agent).
Local Notation process_query :=
  (process_query classifier_chain decompose_complex_query agent combine_chain
     json_loads Table pd_DataFrame time_to_datetime to_string).

Lemma collect_rows_stamped (all_items items : list (string * Json)) :
  (forall symbol, In symbol (keys items) -> In symbol (keys all_items)) ->
  forall all_rows rows,
    Forall (stamped all_items) all_rows ->
    collect_rows items all_rows = Ret rows ->
    Forall (stamped all_items) rows.
Proof.
  induction items as [|[symbol inner] rest IH]; intros Hkeys all_rows rows Hall;
    cbn [Orchestrator.collect_rows].
  - now intros [= <-].
  - destruct (match inner with JStr s => json_loads s | _ => Raise _ end)
      as [e|records]; cbn [bind]; [discriminate|].
    destruct (py_iter records) as [e|rs]; cbn [bind]; [discriminate|].
    destruct (stamp_all symbol rs) as [e|rs'] eqn:Es; cbn [bind];
      [discriminate|].
    apply IH.
    + intros s Hs. apply Hkeys. now right.
    + apply Forall_app. split; [exact Hall|].
      apply stamp_all_stamped in Es.
      eapply Forall_impl; [|exact Es]. intros row (kv & -> & Hkv).
      exists symbol, kv. repeat split; auto. apply Hkeys. now left.
Qed.

(** C6.  A simple request whose agent result has no structured response is
    answered, whatever the tool payload: the answer is the table rendered
    from the rows of the payload, each row stamped with its symbol and the
    time column converted, when every step of that succeeds, and the text of
    the output (of the whole result when there is no output entry) when any
    step fails. *)
Theorem simple_answer_degrades (query : string) (c : QueryClassification)
    (result : AgentResult) :
  classifier_chain query = Ret c ->
  is_complex c = false ->
  agent query = Ret result ->
  structured_response result = None ->
  exists answer,
    process_query query []
    = (Ret (mkResponse answer false (reasoning c)),
       [Classify query; AgentInvoke query])
    /\ extract_answer result = Ret answer
    /\ (forall table, table_answer result = Ret table -> answer = table)
    /\ (forall e, table_answer result = Raise e ->
          answer = match output result with
                   | Some o => o
                   | None => str_of result
                   end)
    /\ (forall content items rows,
          last_message_content result = Ret content ->
          json_loads content = Ret (JObj items) ->
          collect_rows items [] = Ret rows ->
          Forall (stamped items) rows
          /\ table_answer result
             = (df <- pd_DataFrame rows ;;
                df <- time_to_datetime df ;;
                to_string df)).
Proof.
  intros Hc Hsimple Hagent Hraw.
  unfold Orchestrator.process_query, Orchestrator.extract_answer, bindR, call, ret.
  rewrite Hc, Hsimple, Hagent, Hraw. cbn [app].
  eexists. split; [reflexivity|]. split; [reflexivity|].
  split; [|split].
  - intros table ->. reflexivity.
  - intros e ->. reflexivity.
  - intros content items rows Hlast Hloads Hrows. split.
    + eapply collect_rows_stamped; [| |exact Hrows]; auto.
    + unfold Orchestrator.table_answer.
      rewrite Hlast. cbn [bind]. rewrite Hloads. cbn [bind].
      now rewrite Hrows.
Qed.

Lemma invoke_each_all (qs : list string) (rs : list AgentResult) :
  Forall2 (fun q r => agent q = Ret r) qs rs ->
  forall results log,
    invoke_each qs results log
    = (Ret (results ++ rs)%list, (log ++ map AgentInvoke qs)%list).
Proof.
  induction 1 as [|q r qs rs Hq Hrest IH]; intros results log;
    cbn [Orchestrator.invoke_each map].
  - unfold ret. now rewrite !app_nil_r.
  - unfold bindR, call. rewrite Hq, IH, <- !app_assoc. reflexivity.
Qed.

(** C5, as the handler does it.  In the complex path the agent is invoked
    on each sub-query, one after the other in decomposition order, and the
    combiner receives one block per sub-query, in that order, numbered from
    1, whose payload is the output entry of the agent's result, or the text
    of the whole result when it has none, with no extraction of an answer
    from the result. *)
Theorem complex_path_blocks (query : string) (c : QueryClassification)
    (sub_queries : list string) (results : list AgentResult)
    (combined_answer : string) :
  classifier_chain query = Ret c ->
  is_complex c = true ->
  decompose_complex_query query = Ret sub_queries ->
  Forall2 (fun q r => agent q = Ret r) sub_queries results ->
  combine_chain query (result_blocks 1 (map get_output results))
  = Ret combined_answer ->
  process_query query []
  = (Ret (mkResponse combined_answer true (reasoning c)),
     ([Classify query; Decompose query] ++ map AgentInvoke sub_queries
      ++ [Combine query (result_blocks 1 (map get_output results))])%list).
Proof.
  intros Hc Hcomplex Hdec Hagents Hcombine.
  unfold Orchestrator.process_query, bindR, call, ret.
  rewrite Hc, Hcomplex, Hdec. cbn [app].
  rewrite (invoke_each_all _ _ Hagents). cbn [app].
  rewrite format_results_blocks, append_empty_l, Hcombine.
  reflexivity.
Qed.

End HandlerFacts.

(* ================================================================== *)
(** ** The properties on the concrete provider *)

(** The SMA tool on [VCB] with the periods 2 and 3. *)
Lemma sma_columns_witness :
  exists results df',
    fst (Scenario.invoke
           (calculate_sma ["VCB"] None None None (PList [2; 3]%Z)))
    = Mapping results
    /\ index_len df' = 3%nat
    /\ (exists col,
          dict_get "SMA_2" (columns df') = Some col
          /\ nth_error col 0 = Some None
          /\ nth_error col 2
             = Some (Some (round2 (Ta.mean 2 [95 # 1; 96 # 1]))))
    /\ (exists col,
          dict_get "SMA_3" (columns df') = Some col
          /\ nth_error col 1 = Some None
          /\ nth_error col 2
             = Some (Some (round2 (Ta.mean 3 [93 # 1; 95 # 1; 96 # 1])))).
Proof.
  destruct (sma_columns
              Scenario.quote_history Scenario.company Scenario.company
              Scenario.company Scenario.to_json "2026-11-04" "2026-10-05"
              Scenario.ta_rsi Scenario.round_none_column
              ["VCB"] None None None (PList [2; 3]%Z) "VCB" Scenario.vcb_bars
              [93 # 1; 95 # 1; 96 # 1])
    as (results & df' & Hrun & _ & _ & Hlen & Hcols).
  - reflexivity.
  - repeat constructor; simpl; lia.
  - simpl. auto.
  - reflexivity.
  - discriminate.
  - reflexivity.
  - reflexivity.
  - exists results, df'. split; [exact Hrun|]. split; [exact Hlen|]. split.
    + destruct (Hcols 2%Z (or_introl eq_refl)) as (col & Hcol & _ & Hrow).
      exists col. split; [exact Hcol|]. split.
      * apply (Hrow 0%nat). simpl. lia.
      * apply (Hrow 2%nat). simpl. lia.
    + destruct (Hcols 3%Z (or_intror (or_introl eq_refl)))
        as (col & Hcol & _ & Hrow).
      exists col. split; [exact Hcol|]. split.
      * apply (Hrow 1%nat). simpl. lia.
      * apply (Hrow 2%nat). simpl. lia.
Defined.

(** The price view on a symbol without data and a symbol with data. *)
Lemma per_symbol_isolation_witness :
  exists results,
    Scenario.invoke (view_ohlcv ["ZZZZ"; "VCB"] None None None None)
    = (Mapping results,
       [QuoteHistory "ZZZZ" "2026-10-05" "2026-11-04" "1D";
        QuoteHistory "VCB" "2026-10-05" "2026-11-04" "1D"])
    /\ dict_get "ZZZZ" results
       = Some (VStr ("Không tìm thấy dữ liệu OHLCV cho mã ZZZZ từ 2026-10-05"
                     ++ " đến 2026-11-04 với khung thời gian 1D"))
    /\ dict_get "VCB" results
       = Some (VStr "[3 records: time,open,high,low,close,volume]").
Proof.
  destruct (per_symbol_isolation
              Scenario.quote_history Scenario.company Scenario.company
              Scenario.company Scenario.to_json "2026-11-04" "2026-10-05"
              Scenario.ta_rsi Scenario.round_none_column
              (view_ohlcv ["ZZZZ"; "VCB"] None None None None) eq_refl)
    as (results & Hrun & Hall).
  exists results. split; [exact Hrun|]. split.
  - destruct (Hall "ZZZZ" (or_introl eq_refl)) as (_ & _ & _ & Hnone & _).
    exact (Hnone eq_refl).
  - destruct (Hall "VCB" (or_intror (or_introl eq_refl)))
      as (_ & _ & _ & _ & Hdata).
    destruct (Hdata Scenario.vcb_bars eq_refl) as (_ & _ & Hjson).
    exact (Hjson _ eq_refl eq_refl eq_refl).
Defined.

(** Scenario D: the total volume of [VCB] next to a symbol that does not
    exist. *)
Lemma total_volume_int64_sum_witness :
  exists results,
    fst (Scenario.invoke (calculate_total_volume ["VCB"; "ZZZZ"] None None None))
    = Mapping results
    /\ dict_get "VCB" results = Some (VInt 5000).
Proof.
  destruct (total_volume_int64_sum
              Scenario.quote_history Scenario.company Scenario.company
              Scenario.company Scenario.to_json "2026-11-04" "2026-10-05"
              Scenario.ta_rsi Scenario.round_none_column
              ["VCB"; "ZZZZ"] None None None "VCB" Scenario.vcb_bars
              [1000; 2500; 1500]%Z)
    as (results & Hrun & _ & Hsum).
  - reflexivity.
  - now left.
  - reflexivity.
  - reflexivity.
  - repeat constructor; unfold int64_min, int64_max; lia.
  - reflexivity.
  - exists results. split; [exact Hrun|].
    apply Hsum. unfold int64_min, int64_max. cbn. lia.
Defined.

(** C8 as stated fails.  Two bars of [2^62] shares each: the tool stores
    [-2^63], which is not the sum [2^63] of the two volumes. *)
Lemma total_volume_wraps :
  exists results,
    Overflow.quote_history "BIG" "2026-10-05" "2026-11-04" "1D"
    = Ret (Some Overflow.big_bars)
    /\ empty Overflow.big_bars = false
    /\ dict_get "volume" (columns Overflow.big_bars)
       = Some [Some (inject_Z (2 ^ 62)); Some (inject_Z (2 ^ 62))]
    /\ fst (CalculateTotalVolumeTool_run Overflow.quote_history
              "2026-11-04" "2026-10-05" ["BIG"] None None None)
       = Mapping results
    /\ dict_get "BIG" results = Some (VInt (- 2 ^ 63))
    /\ dict_get "BIG" results <> Some (VInt (2 ^ 62 + 2 ^ 62)).
Proof.
  eexists. repeat split; try reflexivity.
  vm_compute. discriminate.
Qed.

(** C1 as stated fails.  [VCB] has 3 bars and the SMA tool is asked for the
    periods 2 and 20: the period 2 fits, yet the entry of [VCB] is the error
    text of the tool, which no frame serializes to, and not a frame with a
    column [SMA_2]. *)
Lemma sma_fails_on_longer_sibling_period :
  exists results,
    Scenario.quote_history "VCB" "2026-10-05" "2026-11-04" "1D"
    = Ret (Some Scenario.vcb_bars)
    /\ index_len Scenario.vcb_bars = 3%nat
    /\ fst (Scenario.invoke
              (calculate_sma ["VCB"] None None None (PList [2; 20]%Z)))
       = Mapping results
    /\ dict_get "VCB" results
       = Some (VStr ("Lỗi khi tính toán SMA cho mã VCB: "
                     ++ "loop of ufunc does not support argument 0 of type "
                     ++ "NoneType"))
    /\ forall df,
         Scenario.to_json df
         <> Ret ("Lỗi khi tính toán SMA cho mã VCB: "
                 ++ "loop of ufunc does not support argument 0 of type "
                 ++ "NoneType").
Proof.
  eexists. repeat split; try reflexivity.
  intros df. unfold Scenario.to_json. discriminate.
Qed.

(** C2 as stated fails.  The SMA tool asked for [ZZZZ], which has no data,
    and [VCB], which has 3 bars, with the period 20: the entry of [ZZZZ] is
    its error text, and the entry of [VCB] is an error text too, which no
    frame serializes to, and not a record list. *)
Lemma symbol_with_data_gets_error_text :
  exists results,
    Scenario.quote_history "ZZZZ" "2026-10-05" "2026-11-04" "1D" = Ret None
    /\ Scenario.quote_history "VCB" "2026-10-05" "2026-11-04" "1D"
       = Ret (Some Scenario.vcb_bars)
    /\ empty Scenario.vcb_bars = false
    /\ structurally_valid
         (calculate_sma ["ZZZZ"; "VCB"] None None None (PList [20]%Z)) = true
    /\ fst (Scenario.invoke
              (calculate_sma ["ZZZZ"; "VCB"] None None None (PList [20]%Z)))
       = Mapping results
    /\ dict_get "ZZZZ" results
       = Some (VStr ("Không tìm thấy dữ liệu OHLCV cho mã ZZZZ từ 2026-10-05"
                     ++ " đến 2026-11-04 với khung thời gian 1D"))
    /\ dict_get "VCB" results
       = Some (VStr ("Lỗi khi tính toán SMA cho mã VCB: "
                     ++ "loop of ufunc does not support argument 0 of type "
                     ++ "NoneType"))
    /\ forall df,
         Scenario.to_json df
         <> Ret ("Lỗi khi tính toán SMA cho mã VCB: "
                 ++ "loop of ufunc does not support argument 0 of type "
                 ++ "NoneType").
Proof.
  eexists. repeat split; try reflexivity.
  intros df. unfold Scenario.to_json. discriminate.
Qed.

(** A symbol asked twice has one entry, at its first place. *)
Lemma one_entry_per_symbol_witness :
  exists results,
    fst (Scenario.invoke
           (calculate_total_volume ["VCB"; "ZZZZ"; "VCB"] None None None))
    = Mapping results
    /\ keys results = ["VCB"; "ZZZZ"].
Proof.
  destruct (one_entry_per_symbol
              Scenario.quote_history Scenario.company Scenario.company
              Scenario.company Scenario.to_json "2026-11-04" "2026-10-05"
              Scenario.ta_rsi Scenario.round_none_column
              (calculate_total_volume ["VCB"; "ZZZZ"; "VCB"] None None None)
              eq_refl)
    as (results & Hrun & Hkeys & _).
  exists results. split; [exact Hrun | exact Hkeys].
Defined.

(** The price view asked for close and volume on a frame that has neither,
    nor a time column. *)
Lemma no_requested_column_is_error_witness :
  exists results,
    Scenario.invoke
      (view_ohlcv ["FPT"; "VCB"] None None None (Some ["close"; "volume"]))
    = (Mapping results,
       [QuoteHistory "FPT" "2026-10-05" "2026-11-04" "1D";
        QuoteHistory "VCB" "2026-10-05" "2026-11-04" "1D"])
    /\ dict_get "FPT" results
       = Some (VStr "Không tìm thấy cột nào trong dữ liệu cho mã FPT").
Proof.
  destruct (no_requested_column_is_error
              Scenario.quote_history Scenario.company Scenario.company
              Scenario.company Scenario.to_json "2026-11-04" "2026-10-05"
              Scenario.ta_rsi Scenario.round_none_column
              ["FPT"; "VCB"] None None None ["close"; "volume"] "FPT"
              Scenario.fpt_bars)
    as (results & Hrun & Hfpt & _).
  - reflexivity.
  - discriminate.
  - reflexivity.
  - simpl. auto.
  - reflexivity.
  - intros col [<-|[<-|[<-|[]]]]; reflexivity.
  - exists results. split; [exact Hrun | exact Hfpt].
Defined.

(** Scenario A: a price question answered with the rendered table. *)
Lemma simple_answer_degrades_witness :
  Scenario.process_query Scenario.price_query []
  = (Ret (mkResponse "table of 1 rows" false "Chỉ cần 1 công cụ"),
     [Classify Scenario.price_query; AgentInvoke Scenario.price_query]).
Proof.
  destruct (simple_answer_degrades
              Scenario.classifier_chain Scenario.decompose_complex_query
              Scenario.agent Scenario.combine_chain Scenario.json_loads
              Scenario.Table Scenario.pd_DataFrame Scenario.time_to_datetime
              Scenario.to_string Scenario.price_query
              (mkClassification false "Chỉ cần 1 công cụ")
              Scenario.price_result eq_refl eq_refl eq_refl eq_refl)
    as (answer & Hrun & _ & Htable & _).
  rewrite (Htable "table of 1 rows" eq_refl) in Hrun. exact Hrun.
Defined.

(** A question about officers and subsidiaries, answered in two steps. *)
Lemma complex_path_blocks_witness :
  snd (Scenario.process_query Scenario.complex_query [])
  = [ Classify Scenario.complex_query;
      Decompose Scenario.complex_query;
      AgentInvoke Scenario.officers_query;
      AgentInvoke Scenario.subsidiaries_query;
      Combine Scenario.complex_query
        (result_blocks 1
           [str_of (Scenario.narrated Scenario.officers_query);
            str_of (Scenario.narrated Scenario.subsidiaries_query)]) ].
Proof.
  assert (Hagents :
            Forall2 (fun q r => Scenario.agent q = Ret r)
              [Scenario.officers_query; Scenario.subsidiaries_query]
              [Scenario.narrated Scenario.officers_query;
               Scenario.narrated Scenario.subsidiaries_query]).
  { repeat constructor. }
  unfold Scenario.process_query.
  rewrite (complex_path_blocks
             Scenario.classifier_chain Scenario.decompose_complex_query
             Scenario.agent Scenario.combine_chain Scenario.json_loads
             Scenario.Table Scenario.pd_DataFrame Scenario.time_to_datetime
             Scenario.to_string Scenario.complex_query
             (mkClassification true "Cần 2 công cụ khác nhau")
             [Scenario.officers_query; Scenario.subsidiaries_query]
             [Scenario.narrated Scenario.officers_query;
              Scenario.narrated Scenario.subsidiaries_query]
             _ eq_refl eq_refl eq_refl Hagents eq_refl).
  reflexivity.
Defined.

(** C5 as stated fails.  For the question about officers and subsidiaries
    the agent narrates both sub-answers, and extracting the answer from each
    result gives its narrated text; the combiner is handed the text of the
    whole result dicts instead. *)
Lemma complex_path_skips_extract_answer :
  exists a1 a2 formatted_results,
    Scenario.agent Scenario.officers_query
    = Ret (Scenario.narrated Scenario.officers_query)
    /\ Scenario.agent Scenario.subsidiaries_query
       = Ret (Scenario.narrated Scenario.subsidiaries_query)
    /\ Scenario.extract_answer (Scenario.narrated Scenario.officers_query)
       = Ret a1
    /\ Scenario.extract_answer (Scenario.narrated Scenario.subsidiaries_query)
       = Ret a2
    /\ snd (Scenario.process_query Scenario.complex_query [])
       = [ Classify Scenario.complex_query;
           Decompose Scenario.complex_query;
           AgentInvoke Scenario.officers_query;
           AgentInvoke Scenario.subsidiaries_query;
           Combine Scenario.complex_query formatted_results ]
    /\ formatted_results <> result_blocks 1 [a1; a2].
Proof.
  eexists _, _, _.
  split; [reflexivity|]. split; [reflexivity|].
  split; [reflexivity|]. split; [reflexivity|].
  split; [reflexivity|].
  apply String.eqb_neq. vm_compute. reflexivity.
Qed.

(* ================================================================== *)
(** * Further properties of the tool layer *)

Import Shapes.

Lemma dict_set_twice {V} (k : string) (v v' : V) (d : dict V) :
  dict_set k v (dict_set k v' d) = dict_set k v d.
Proof.
  induction d as [|[k0 v0] d IH]; cbn [dict_set].
  - now rewrite String.eqb_refl.
  - destruct (String.eqb k0 k) eqn:E; cbn [dict_set]; rewrite E; congruence.
Qed.

Lemma setitem_twice (df : DataFrame) (name : string) (s s' : Series) :
  setitem (setitem df name s') name s = setitem df name s.
Proof. unfold setitem. cbn [index_len columns]. now rewrite dict_set_twice. Qed.

Lemma select_columns_present (cols : dict Series) (names : list string) :
  (forall c, In c names -> mem c (keys cols) = true) ->
  exists sel,
    select_columns cols names = Ret sel
    /\ keys sel = names
    /\ forall c, In c names -> dict_get c sel = dict_get c cols.
Proof.
  induction names as [|n ns IH]; intros Hall; cbn [select_columns].
  - exists []. repeat split. intros c [].
  - destruct (proj1 (dict_get_mem n cols) (Hall n (or_introl eq_refl)))
      as (s & Hs).
    rewrite Hs.
    destruct IH as (rest & -> & Hkeys & Hget).
    { intros c Hc. apply Hall. now right. }
    cbn [bind]. exists ((n, s) :: rest). split; [reflexivity|]. split.
    + unfold keys in *. cbn [map fst]. now rewrite Hkeys.
    + intros c Hc. cbn [dict_get].
      destruct (String.eqb_spec n c) as [->|Hne]; [now rewrite Hs|].
      destruct Hc as [->|Hc]; [congruence | now apply Hget].
Qed.

Lemma filter_nonempty {A} (p : A -> bool) (l : list A) (x : A) :
  In x l -> p x = true -> filter p l <> [].
Proof.
  intros Hin Hp E.
  assert (H : In x (filter p l)) by (apply filter_In; auto).
  rewrite E in H. exact H.
Qed.

Lemma forallb_false_witness {A} (p : A -> bool) (l : list A) :
  forallb p l = false -> exists x, In x l /\ p x = false.
Proof.
  induction l as [|y l IH]; cbn; [discriminate|].
  destruct (p y) eqn:E; cbn.
  - intros H. destruct (IH H) as (x & Hx & Hp). eauto.
  - eauto.
Qed.

Lemma first_nonpositive_first (good : list Z) (p : Z) (rest : list Z) :
  Forall (fun q => (0 < q)%Z) good ->
  (p <= 0)%Z ->
  first_nonpositive (good ++ p :: rest) = Some p.
Proof.
  intros Hgood Hp. induction Hgood as [|q good Hq _ IH]; cbn.
  - destruct (Z.leb_spec p 0); [reflexivity | lia].
  - destruct (Z.leb_spec q 0); [lia | exact IH].
Qed.

Lemma first_nonpositive_exists (periods : list Z) :
  forallb (fun p => (0 <? p)%Z) periods = false ->
  exists q, first_nonpositive periods = Some q.
Proof.
  induction periods as [|p ps IH]; cbn; [discriminate|].
  destruct (Z.leb_spec p 0); [eauto|].
  destruct (Z.ltb_spec 0 p); [|lia]. exact IH.
Qed.

Section MoreToolFacts.

Variable quote_history :
  string -> string -> string -> string -> Exc (option DataFrame).
Variable company_shareholders : string -> Exc (option DataFrame).
Variable company_officers : string -> Exc (option DataFrame).
Variable company_subsidiaries : string -> Exc (option DataFrame).
Variable to_json : DataFrame -> Exc string.
Variable get_today : string.
Variable get_past_date : string.
Variable ta_rsi : Series -> Z -> option Series.
Variable round_none_column : Exc Series.

Local Notation invoke :=
  (invoke quote_history company_shareholders company_officers
     company_subsidiaries to_json get_today get_past_date ta_rsi
     round_none_column).
Local Notation symbol_value :=
  (symbol_value quote_history company_shareholders company_officers
     company_subsidiaries to_json get_today get_past_date ta_rsi
     round_none_column).
Local Notation invoke_valid :=
  (invoke_valid quote_history company_shareholders company_officers
     company_subsidiaries to_json get_today get_past_date ta_rsi
     round_none_column).

(** X1.  The price view called with a valid interval and a requested column
    that is not one of the six available ones returns one message and no
    mapping, without any provider request: the message lists the invalid
    columns, in the order asked, and then the six available ones. *)
Theorem invalid_columns_rejected (symbols : list string)
    (start end_ interval : option string) (cols : list string) (c : string) :
  mem (interval_of interval) valid_intervals = true ->
  In c cols ->
  mem c available_columns = false ->
  ViewOHLCVTool_run quote_history to_json get_today get_past_date
    symbols start end_ interval (Some cols)
  = (Rejected ("Cột không hợp lệ: " ++ join ", " (invalid_columns cols)
               ++ ". Các cột có sẵn: time, open, high, low, close, volume"),
     [])
  /\ In c (invalid_columns cols)
  /\ forall c', In c' (invalid_columns cols)
                <-> In c' cols /\ ~ In c' available_columns.
Proof.
  intros Hiv Hc Hbad.
  assert (Hin : In c (invalid_columns cols)).
  { apply filter_In. now rewrite Hbad. }
  split; [|split; [exact Hin|]].
  - unfold ViewOHLCVTool_run. unfold interval_of in Hiv. rewrite Hiv.
    cbn [negb]. destruct cols as [|c0 cs]; [destruct Hc|].
    fold (invalid_columns (c0 :: cs)).
    destruct (invalid_columns (c0 :: cs)) eqn:E; [destruct Hin|].
    reflexivity.
  - intros c'. unfold invalid_columns. rewrite filter_In.
    destruct (mem c' available_columns) eqn:E; cbn [negb].
    + apply mem_In in E.
      split; [intros [_ H]; discriminate | intros [_ H]; contradiction].
    + assert (Hn : ~ In c' available_columns).
      { intros H. apply mem_In in H. congruence. }
      split; intros [H _]; split; auto.
Qed.

(** X2.  A call is refused exactly when its structural inputs are invalid:
    it then returns one message and has issued no provider request;
    otherwise it returns a mapping. *)
Theorem rejected_iff_invalid (call : ToolCall) :
  (structurally_valid call = false
   <-> exists msg, invoke call = (Rejected msg, []))
  /\ (structurally_valid call = true
      <-> exists results, fst (invoke call) = Mapping results).
Proof.
  assert (Hbad : structurally_valid call = false ->
                 exists msg, invoke call = (Rejected msg, [])).
  { unfold structurally_valid.
    destruct call as [symbols|symbols|symbols|symbols st en iv columns
                     |symbols st en iv|symbols st en iv period
                     |symbols st en iv period]; cbn; try discriminate.
    - unfold ViewOHLCVTool_run.
      destruct (mem (default_arg iv "1D") valid_intervals); cbn; [|eauto].
      rewrite andb_true_r. intros H.
      destruct columns as [cols|]; [|discriminate].
      destruct (forallb_false_witness _ _ H) as (c & Hc & Hm).
      destruct cols as [|c0 cs]; [destruct Hc|].
      destruct (filter _ (c0 :: cs)) eqn:E; [|eauto].
      exfalso. eapply (filter_nonempty _ _ c Hc); [|exact E].
      cbv beta. now rewrite Hm.
    - unfold CalculateTotalVolumeTool_run.
      destruct (mem (default_arg iv "1D") valid_intervals); cbn;
        [discriminate | eauto].
    - unfold CalculateSMATool_run.
      destruct (mem (default_arg iv "1D") valid_intervals); cbn; [|eauto].
      intros H. destruct (first_nonpositive_exists _ H) as (q & ->). eauto.
    - unfold CalculateRSITool_run.
      destruct (mem (default_arg iv "1D") valid_intervals); cbn; [|eauto].
      rewrite andb_true_r. intros H. apply Z.ltb_ge in H.
      destruct (Z.leb_spec period 0); [eauto | lia]. }
  assert (Hgood : structurally_valid call = true ->
                  exists results, fst (invoke call) = Mapping results).
  { intros H. rewrite (invoke_valid call H). cbn. eauto. }
  split; split; auto.
  - intros (msg & Hmsg).
    destruct (structurally_valid call) eqn:E; [|reflexivity].
    destruct (Hgood eq_refl) as (results & Hres).
    rewrite Hmsg in Hres. discriminate.
  - intros (results & Hres).
    destruct (structurally_valid call) eqn:E; [reflexivity|].
    destruct (Hbad eq_refl) as (msg & Hmsg).
    rewrite Hmsg in Hres. discriminate.
Qed.

(** X3.  The SMA tool names in its message the first requested period, in
    the order given, that is not positive. *)
Theorem first_nonpositive_period_reported (symbols : list string)
    (start end_ interval : option string) (good : list Z) (p : Z)
    (rest : list Z) :
  mem (interval_of interval) valid_intervals = true ->
  Forall (fun q => (0 < q)%Z) good ->
  (p <= 0)%Z ->
  CalculateSMATool_run quote_history to_json get_today get_past_date
    round_none_column symbols start end_ interval (PList (good ++ p :: rest))
  = (Rejected ("Chu kỳ SMA phải là số dương. Giá trị nhận được: "
               ++ str_of_int p), []).
Proof.
  intros Hiv Hgood Hp. unfold CalculateSMATool_run.
  unfold interval_of in Hiv. rewrite Hiv. cbn [negb periods_of].
  now rewrite first_nonpositive_first.
Qed.

(** X4.  In a valid call of the price view with requested columns, a symbol
    with a non-empty frame that has at least one of the kept columns gets
    the serialization of a frame with the same rows and exactly the kept
    columns (time first unless asked for, then the requested ones that the
    data has, in the order asked), each with the fetched values; the
    selection itself never fails. *)
Theorem ohlcv_selects_columns (symbols : list string)
    (start end_ interval : option string) (cols : list string) (s : string)
    (df : DataFrame) :
  mem (interval_of interval) valid_intervals = true ->
  cols <> [] ->
  forallb (fun col => mem col available_columns) cols = true ->
  In s symbols ->
  quote_history s (start_of get_past_date start) (end_of get_today end_)
    (interval_of interval) = Ret (Some df) ->
  empty df = false ->
  kept_columns cols df <> [] ->
  exists results df',
    fst (ViewOHLCVTool_run quote_history to_json get_today get_past_date
           symbols start end_ interval (Some cols)) = Mapping results
    /\ getitems df (kept_columns cols df) = Ret df'
    /\ index_len df' = index_len df
    /\ keys (columns df') = kept_columns cols df
    /\ (forall c, In c (kept_columns cols df) ->
          dict_get c (columns df') = dict_get c (columns df))
    /\ dict_get s results
       = Some (VStr match to_json df' with
                    | Ret js => js
                    | Raise e =>
                        exception_msg
                          (view_ohlcv symbols start end_ interval (Some cols))
                          s e
                    end).
Proof.
  intros Hiv Hne Hcols Hs Hfetch Hdata Hkept.
  destruct (select_columns_present (columns df) (kept_columns cols df))
    as (sel & Hsel & Hkeys & Hget).
  { intros c Hc. apply filter_In in Hc. exact (proj2 Hc). }
  pose (call := view_ohlcv symbols start end_ interval (Some cols)).
  assert (Hvalid : structurally_valid call = true).
  { unfold structurally_valid. cbn. unfold interval_of in Hiv.
    now rewrite Hiv, Hcols. }
  pose proof (invoke_valid call Hvalid) as Hrun. cbn [Tools.invoke call] in Hrun.
  rewrite Hrun.
  exists (fill (symbol_value call) symbols []),
         (mkFrame (index_len df) sel).
  split; [reflexivity|]. split.
  { unfold getitems. now rewrite Hsel. }
  split; [reflexivity|]. split; [exact Hkeys|]. split; [exact Hget|].
  rewrite dict_get_fill. apply mem_In in Hs. rewrite Hs. f_equal.
  cbn [PerSymbol.symbol_value call].
  unfold Tools.ohlcv_symbol, history.
  unfold start_of, end_of, interval_of in *. rewrite Hfetch, Hdata.
  destruct cols as [|c0 cs]; [congruence|].
  cbv zeta.
  replace (negb (mem "time" (c0 :: cs))
           && (0 <? Datatypes.length (c0 :: cs))%nat)
    with (negb (mem "time" (c0 :: cs))) by now rewrite andb_true_r.
  assert (E : filter (fun col => has_column col df)
                (if negb (mem "time" (c0 :: cs))
                 then "time" :: c0 :: cs else c0 :: cs)
              = kept_columns (c0 :: cs) df).
  { unfold kept_columns. now destruct (mem "time" (c0 :: cs)). }
  rewrite E.
  destruct (kept_columns (c0 :: cs) df) as [|k ks] eqn:Ek; [congruence|].
  cbn [fst]. unfold getitems. rewrite Hsel. cbn [bind].
  destruct (to_json _); reflexivity.
Qed.

End MoreToolFacts.

(** ** The frames of the indicator tools *)

Section MoreIndicatorFacts.

Variable quote_history :
  string -> string -> string -> string -> Exc (option DataFrame).
Variable company_shareholders : string -> Exc (option DataFrame).
Variable company_officers : string -> Exc (option DataFrame).
Variable company_subsidiaries : string -> Exc (option DataFrame).
Variable to_json : DataFrame -> Exc string.
Variable get_today : string.
Variable get_past_date : string.
Variable ta_rsi : Series -> Z -> option Series.
Variable round_none_column : Exc Series.

Local Notation symbol_value :=
  (symbol_value quote_history company_shareholders company_officers
     company_subsidiaries to_json get_today get_past_date ta_rsi
     round_none_column).
Local Notation invoke_valid :=
  (invoke_valid quote_history company_shareholders company_officers
     company_subsidiaries to_json get_today get_past_date ta_rsi
     round_none_column).

Lemma add_sma_columns_frame (closes : list Q) (periods : list Z) :
  Forall (fun p => (0 < p <= Z.of_nat (List.length closes))%Z) periods ->
  forall df,
    dict_get "close" (columns df) = Some (map Some closes) ->
    exists df',
      add_sma_columns round_none_column periods df = Ret df'
      /\ keys (columns df')
         = (keys (columns df)
            ++ new_sma_columns periods (keys (columns df)))%list
      /\ (forall name, ~ In name (map sma_column_name periods) ->
            dict_get name (columns df') = dict_get name (columns df)).
Proof.
  unfold new_sma_columns.
  induction 1 as [|p ps Hp Hps IH]; intros df Hclose.
  - exists df. cbn. rewrite app_nil_r. repeat split.
  - cbn [add_sma_columns]. unfold getitem at 1. rewrite Hclose.
    cbn [bind]. rewrite assign_rounded_sma by exact Hp. cbn [bind].
    set (df1 := setitem (setitem df _ _) _ _).
    assert (Hkeys1 : keys (columns df1)
                     = if mem (sma_column_name p) (keys (columns df))
                       then keys (columns df)
                       else (keys (columns df) ++ [sma_column_name p])%list).
    { subst df1. cbn [columns setitem].
      rewrite dict_set_twice. apply keys_dict_set. }
    assert (Hother : forall name, name <> sma_column_name p ->
              dict_get name (columns df1) = dict_get name (columns df)).
    { intros name Hn. subst df1. cbn [columns setitem].
      now rewrite !dict_get_set_other by exact Hn. }
    assert (Hclose1 : dict_get "close" (columns df1) = Some (map Some closes)).
    { rewrite Hother; [exact Hclose|]. intros E. symmetry in E.
      now apply sma_column_name_not_close in E. }
    destruct (IH df1 Hclose1) as (df' & Hrun & Hkeys & Hrest).
    exists df'. split; [exact Hrun|]. split.
    + rewrite Hkeys, Hkeys1. cbn [map first_occurrences filter].
      destruct (mem (sma_column_name p) (keys (columns df))) eqn:Ep;
        cbn [negb].
      * now rewrite filter_known.
      * rewrite <- app_assoc. cbn [app].
        now rewrite filter_first_occurrence.
    + intros name Hn. cbn [map In] in Hn.
      rewrite Hrest by (intros H; apply Hn; now right).
      apply Hother. intros E. apply Hn. now left.
Qed.

(** X5.  On a frame with defined closes and periods that fit, the loop of
    the SMA tool keeps every fetched column where it was, with its values,
    and puts the new SMA columns after them, one per distinct period in the
    order the periods are first asked; an SMA column the frame already had
    is overwritten in place. *)
Theorem sma_keeps_fetched_columns (closes : list Q) (periods : list Z)
    (df : DataFrame) :
  Forall (fun p => (0 < p <= Z.of_nat (List.length closes))%Z) periods ->
  dict_get "close" (columns df) = Some (map Some closes) ->
  exists df',
    add_sma_columns round_none_column periods df = Ret df'
    /\ keys (columns df')
       = (keys (columns df)
          ++ new_sma_columns periods (keys (columns df)))%list
    /\ (forall name, ~ In name (map sma_column_name periods) ->
          dict_get name (columns df') = dict_get name (columns df))
    /\ dict_get "close" (columns df') = Some (map Some closes).
Proof.
  intros Hperiods Hclose.
  destruct (add_sma_columns_frame closes periods Hperiods df Hclose)
    as (df' & Hrun & Hkeys & Hrest).
  exists df'. split; [exact Hrun|]. split; [exact Hkeys|].
  split; [exact Hrest|].
  rewrite Hrest; [exact Hclose|].
  rewrite in_map_iff. intros (p & E & _).
  now apply sma_column_name_not_close in E.
Qed.

(** X6.  In a valid call of the RSI tool, a symbol with a non-empty frame
    that has a close column, for which the indicator returns a series, gets
    the serialization of the fetched frame with one column [RSI_period]
    holding the indicator rounded to 2 decimals: the column is written in
    place if the frame had one of that name and added last otherwise, and
    every other column is as fetched. *)
Theorem rsi_column (symbols : list string)
    (start end_ interval : option string) (period : Z) (s : string)
    (df : DataFrame) (close rsi : Series) :
  mem (interval_of interval) valid_intervals = true ->
  (0 < period)%Z ->
  In s symbols ->
  quote_history s (start_of get_past_date start) (end_of get_today end_)
    (interval_of interval) = Ret (Some df) ->
  empty df = false ->
  dict_get "close" (columns df) = Some close ->
  ta_rsi close period = Some rsi ->
  exists results df',
    fst (CalculateRSITool_run quote_history to_json get_today get_past_date
           ta_rsi round_none_column symbols start end_ interval period)
    = Mapping results
    /\ dict_get s results
       = Some (VStr match to_json df' with
                    | Ret js => js
                    | Raise e =>
                        exception_msg
                          (calculate_rsi symbols start end_ interval period)
                          s e
                    end)
    /\ index_len df' = index_len df
    /\ dict_get ("RSI_" ++ str_of_int period) (columns df')
       = Some (map (option_map round2) rsi)
    /\ (forall name, name <> "RSI_" ++ str_of_int period ->
          dict_get name (columns df') = dict_get name (columns df))
    /\ keys (columns df')
       = if mem ("RSI_" ++ str_of_int period) (keys (columns df))
         then keys (columns df)
         else (keys (columns df)
               ++ [("RSI_" ++ str_of_int period)%string])%list.
Proof.
  intros Hiv Hp Hs Hfetch Hdata Hclose Hrsi.
  pose (call := calculate_rsi symbols start end_ interval period).
  assert (Hvalid : structurally_valid call = true).
  { unfold structurally_valid. cbn. unfold interval_of in Hiv.
    rewrite Hiv. cbn. apply Z.ltb_lt in Hp. now rewrite Hp. }
  pose proof (invoke_valid call Hvalid) as Hrun. cbn [Tools.invoke call] in Hrun.
  rewrite Hrun.
  exists (fill (symbol_value call) symbols []),
         (setitem df (rsi_column_name period) (round_series rsi)).
  split; [reflexivity|]. split; [|split; [reflexivity|split; [|split]]].
  - rewrite dict_get_fill. apply mem_In in Hs. rewrite Hs. f_equal.
    cbn [PerSymbol.symbol_value call].
    unfold rsi_symbol, history.
    unfold start_of, end_of, interval_of in *. rewrite Hfetch.
    cbn [fst bind try_except]. rewrite Hdata.
    assert (Hcol : has_column "close" df = true).
    { unfold has_column. apply dict_get_mem. eauto. }
    rewrite Hcol. cbn [negb]. unfold getitem at 1. rewrite Hclose.
    cbn [bind]. rewrite Hrsi. unfold assign_rounded, getitem.
    cbn [columns setitem]. rewrite dict_get_set_same. cbn [bind].
    rewrite setitem_twice.
    destruct (to_json _); reflexivity.
  - cbn [columns setitem]. apply dict_get_set_same.
  - intros name Hname. cbn [columns setitem].
    now apply dict_get_set_other.
  - cbn [columns setitem]. apply keys_dict_set.
Qed.

End MoreIndicatorFacts.

(* ================================================================== *)
(** * Further properties of the request handler *)

Lemma stamp_all_records (symbol : string)
    (records : list (list (string * Json))) :
  stamp_all symbol (map JObj records) = Ret (map (stamp symbol) records).
Proof.
  induction records as [|r rs IH]; cbn [map stamp_all]; [reflexivity|].
  cbn [set_symbol bind]. rewrite IH. reflexivity.
Qed.

Section MoreHandlerFacts.

Variable classifier_chain : string -> Exc QueryClassification.
Variable decompose_complex_query : string -> Exc (list string).
Variable agent : string -> Exc AgentResult.
Variable combine_chain : string -> string -> Exc string.
Variable json_loads : string -> Exc Json.
Variable Table : Type.
Variable pd_DataFrame : list Json -> Exc Table.
Variable time_to_datetime : Table -> Exc Table.
Variable to_string : Table -> Exc string.

Local Notation collect_rows := (collect_rows json_loads).
Local Notation table_answer :=
  (table_answer json_loads Table pd_DataFrame time_to_datetime to_string).
Local Notation extract_answer :=
  (extract_answer json_loads Table pd_DataFrame time_to_datetime to_string).
Local Notation invoke_each := (invoke_each agent).
Local Notation process_query :=
  (process_query classifier_chain decompose_complex_query agent combine_chain
     json_loads Table pd_DataFrame time_to_datetime to_string).

(** X7.  A response always carries the verdict of the classifier: its
    complexity flag and its reasoning are those of the classification of the
    query, and in the complex case its answer is what the combiner
    returned. *)
Theorem response_reports_classification (query : string) (log log' : list Event)
    (response : QueryResponse) :
  process_query query log = (Ret response, log') ->
  exists c,
    classifier_chain query = Ret c
    /\ response_is_complex response = is_complex c
    /\ response_reasoning response = reasoning c
    /\ (is_complex c = true ->
        exists formatted_results,
          combine_chain query formatted_results = Ret (answer response)).
Proof.
  unfold Orchestrator.process_query, bindR, call, ret. intros H.
  destruct (classifier_chain query) as [e|c]; [discriminate H|].
  exists c. split; [reflexivity|].
  destruct (is_complex c) eqn:Ec.
  - destruct (decompose_complex_query query) as [e|qs]; [discriminate H|].
    destruct (invoke_each qs [] _) as [[e|rs] l]; [discriminate H|].
    destruct (combine_chain query _) as [e|a] eqn:Ea; [discriminate H|].
    injection H as <- _. cbn. repeat split; eauto.
  - destruct (agent query) as [e|r]; [discriminate H|].
    unfold Orchestrator.extract_answer in H.
    destruct (structured_response r); injection H as <- _;
      cbn; repeat split; discriminate.
Qed.

(** X8.  For a query classified as simple the handler calls the classifier
    and then the agent once, and nothing else: neither the decomposition nor
    the combiner.  A structured response of the agent is answered with its
    content, without looking at the messages; a failure of the agent is the
    failure of the request. *)
Theorem simple_path_calls (query : string) (c : QueryClassification)
    (log : list Event) :
  classifier_chain query = Ret c ->
  is_complex c = false ->
  snd (process_query query log)
  = (log ++ [Classify query; AgentInvoke query])%list
  /\ (forall result content,
        agent query = Ret result ->
        structured_response result = Some content ->
        fst (process_query query log)
        = Ret (mkResponse content false (reasoning c)))
  /\ (forall e,
        agent query = Raise e ->
        fst (process_query query log)
        = Raise ("Error processing query: " ++ e)).
Proof.
  intros Hc Hsimple.
  unfold Orchestrator.process_query, Orchestrator.extract_answer, bindR, call, ret.
  rewrite Hc, Hsimple. split; [|split].
  - destruct (agent query) as [e|r]; cbn [snd]; rewrite <- app_assoc;
      [reflexivity|].
    destruct (structured_response r); reflexivity.
  - intros result content -> ->. reflexivity.
  - intros e ->. reflexivity.
Qed.

Lemma invoke_each_fails (done : list string) (rs : list AgentResult)
    (q e : string) (rest : list string) :
  Forall2 (fun q r => agent q = Ret r) done rs ->
  agent q = Raise e ->
  forall results log,
    invoke_each (done ++ q :: rest) results log
    = (Raise e, (log ++ map AgentInvoke done ++ [AgentInvoke q])%list).
Proof.
  intros Hdone Hq.
  induction Hdone as [|q' r done rs Hq' _ IH]; intros results log;
    cbn [app Orchestrator.invoke_each map]; unfold bindR, call.
  - now rewrite Hq.
  - rewrite Hq', IH, <- app_assoc. reflexivity.
Qed.

(** X9.  In the complex path, when the agent fails on a sub-query the
    request fails with the text of that failure: the sub-queries after it are
    not sent to the agent, the combiner is not called, and the answers
    already obtained are not returned. *)
Theorem failed_sub_query_aborts (query : string) (c : QueryClassification)
    (done : list string) (results : list AgentResult) (q e : string)
    (rest : list string) :
  classifier_chain query = Ret c ->
  is_complex c = true ->
  decompose_complex_query query = Ret (done ++ q :: rest)%list ->
  Forall2 (fun q r => agent q = Ret r) done results ->
  agent q = Raise e ->
  process_query query []
  = (Raise ("Error processing query: " ++ e),
     ([Classify query; Decompose query] ++ map AgentInvoke done
      ++ [AgentInvoke q])%list).
Proof.
  intros Hc Hcomplex Hdec Hdone Hq.
  unfold Orchestrator.process_query, bindR, call, ret.
  rewrite Hc, Hcomplex, Hdec. cbn [app].
  now rewrite (invoke_each_fails _ _ _ _ _ Hdone Hq).
Qed.

(** X10.  A failure of the classifier, or of the decomposition of a query
    classified as complex, is the failure of the request: the agent and the
    combiner are never called, and there is no fall back to the simple
    path. *)
Theorem planning_failure_is_fatal (query e : string) :
  classifier_chain query = Raise e
  \/ (exists c, classifier_chain query = Ret c /\ is_complex c = true
                /\ decompose_complex_query query = Raise e) ->
  fst (process_query query []) = Raise ("Error processing query: " ++ e)
  /\ forall ev, In ev (snd (process_query query [])) ->
                ev = Classify query \/ ev = Decompose query.
Proof.
  unfold Orchestrator.process_query, bindR, call, ret.
  intros [->|(c & -> & -> & ->)]; cbn; (split; [reflexivity|]);
    intros ev Hev; intuition (subst; auto).
Qed.

Lemma collect_rows_undecodable (items : list (string * Json)) :
  Exists (undecodable json_loads) items ->
  forall all_rows, exists e, collect_rows items all_rows = Raise e.
Proof.
  induction 1 as [[symbol inner] rest Hbad|[symbol inner] rest _ IH];
    intros all_rows; cbn [Orchestrator.collect_rows].
  - unfold undecodable in Hbad. cbn [snd] in Hbad.
    destruct inner; cbn [bind]; eauto.
    destruct Hbad as (e & ->). cbn [bind]. eauto.
  - destruct (match inner with JStr s => json_loads s | _ => Raise _ end)
      as [e|records]; cbn [bind]; eauto.
    destruct (py_iter records) as [e|rs]; cbn [bind]; eauto.
    destruct (stamp_all symbol rs) as [e|rs']; cbn [bind]; eauto.
Qed.

(** X11.  When the payload of a raw result has an entry whose value is not a
    text that decodes as JSON, such as the error text a tool stores for a
    symbol without data, no table is built at all: the answer is the raw
    text of the result, for every symbol of the payload. *)
Theorem undecodable_entry_degrades (result : AgentResult) (content : string)
    (items : list (string * Json)) :
  structured_response result = None ->
  last_message_content result = Ret content ->
  json_loads content = Ret (JObj items) ->
  Exists (undecodable json_loads) items ->
  extract_answer result
  = Ret match output result with
        | Some o => o
        | None => str_of result
        end.
Proof.
  intros Hraw Hlast Hloads Hbad.
  unfold Orchestrator.extract_answer, Orchestrator.table_answer.
  rewrite Hraw, Hlast. cbn [bind]. rewrite Hloads. cbn [bind].
  destruct (collect_rows_undecodable items Hbad []) as (e & ->).
  reflexivity.
Qed.

Lemma collect_rows_decoded (items : list (string * Json))
    (parsed : list (string * list (list (string * Json)))) :
  Forall2 (decodes_to json_loads) items parsed ->
  forall all_rows,
    collect_rows items all_rows = Ret (all_rows ++ table_rows parsed)%list.
Proof.
  induction 1 as [|[symbol inner] [symbol' records] items parsed Hd _ IH];
    intros all_rows; cbn [Orchestrator.collect_rows].
  - cbn. now rewrite app_nil_r.
  - destruct Hd as (Hsym & s & Hinner & Hloads). cbn [fst snd] in *.
    subst inner symbol'. rewrite Hloads. cbn [bind py_iter].
    rewrite stamp_all_records. cbn [bind]. rewrite IH.
    unfold table_rows. cbn [flat_map fst snd]. now rewrite app_assoc.
Qed.

(** X12.  When every entry of the payload decodes to a list of records, the
    table is built from one row per record, the rows of an entry in their
    order and the entries in the order of the payload, each row being the
    record with its symbol field set to the key of its entry (replacing a
    symbol field the record had). *)
Theorem rows_are_flattened (result : AgentResult) (content : string)
    (items : list (string * Json))
    (parsed : list (string * list (list (string * Json)))) :
  last_message_content result = Ret content ->
  json_loads content = Ret (JObj items) ->
  Forall2 (decodes_to json_loads) items parsed ->
  table_answer result
  = (df <- pd_DataFrame (table_rows parsed) ;;
     df <- time_to_datetime df ;;
     to_string df)
  /\ List.length (table_rows parsed)
     = list_sum (map (fun p => List.length (snd p)) parsed)
  /\ (forall row,
        In row (table_rows parsed)
        <-> exists symbol records kv,
              In (symbol, records) parsed /\ In kv records
              /\ row = stamp symbol kv)
  /\ forall symbol kv,
       exists kv',
         stamp symbol kv = JObj kv'
         /\ dict_get "symbol" kv' = Some (JStr symbol)
         /\ forall k, k <> "symbol" -> dict_get k kv' = dict_get k kv.
Proof.
  intros Hlast Hloads Hdec. split; [|split; [|split]].
  - unfold Orchestrator.table_answer. rewrite Hlast. cbn [bind].
    rewrite Hloads. cbn [bind].
    now rewrite (collect_rows_decoded _ _ Hdec).
  - unfold table_rows. clear. induction parsed as [|p ps IH]; cbn; auto.
    now rewrite length_app, length_map, IH.
  - intros row. unfold table_rows. rewrite in_flat_map. split.
    + intros ([symbol records] & Hp & Hrow). cbn [fst snd] in Hrow.
      apply in_map_iff in Hrow as (kv & <- & Hkv).
      exists symbol, records, kv. auto.
    + intros (symbol & records & kv & Hp & Hkv & ->).
      exists (symbol, records). split; [exact Hp|].
      cbn [fst snd]. now apply in_map.
  - intros symbol kv. eexists. split; [reflexivity|].
    split; [apply dict_get_set_same|].
    intros k Hk. now apply dict_get_set_other.
Qed.

End MoreHandlerFacts.

(* ================================================================== *)
(** * The batch tester *)

Section BatchFacts.

Variable post_json : string -> string -> Exc (list (string * Json)).

Local Notation test_queries := (AutoTest.test_queries post_json).
Local Notation auto_test := (AutoTest.auto_test post_json).

(** The API answers the question of a row with the answer [a]. *)
Local Notation answered :=
  (fun (row : AutoTest.Row) (a : Json) =>
     exists response,
       post_json AutoTest.api_url (AutoTest.question row) = Ret response
       /\ dict_get "answer" response = Some a).

Local Notation post_of :=
  (fun row : AutoTest.Row =>
     AutoTest.Post AutoTest.api_url (AutoTest.question row)).

Lemma test_queries_answered (rows : list AutoTest.Row) (answers : list Json) :
  Forall2 answered rows answers ->
  forall len index log,
    (index + Z.of_nat (List.length rows) = len)%Z ->
    test_queries len index rows log
    = (Ret (AutoTest.with_answers rows answers),
       (log ++ AutoTest.intersperse (AutoTest.Sleep 5) (map post_of rows))%list).
Proof.
  induction 1 as [|row a rows answers (response & Hpost & Hanswer) Hrest IH];
    intros len index log Hlen; cbn [AutoTest.test_queries].
  - cbn. now rewrite app_nil_r.
  - rewrite Hpost, Hanswer.
    rewrite (IH len (index + 1)%Z) by (cbn [List.length] in Hlen; lia).
    cbn [AutoTest.with_answers]. f_equal.
    destruct rows as [|row' rows].
    + cbn [List.length] in Hlen.
      destruct (Z.ltb_spec index (len - 1)); [lia|].
      cbn. now rewrite app_nil_r.
    + cbn [List.length] in Hlen.
      destruct (Z.ltb_spec index (len - 1)); [|lia].
      cbn [map AutoTest.intersperse]. rewrite <- !app_assoc. reflexivity.
Qed.

(** X13.  When the API answers every question, the batch tester posts the
    questions in the order of the template, waits 5 seconds between two
    posts and not after the last one, and then writes the results once, each
    row with the answer to its own question. *)
Theorem auto_test_run (data : list AutoTest.Row) (answers : list Json) :
  Forall2 answered data answers ->
  auto_test data
  = (Ret tt,
     (AutoTest.intersperse (AutoTest.Sleep 5) (map post_of data)
      ++ [AutoTest.ToCsv "assets/test_results.csv"
            (AutoTest.with_answers data answers)])%list).
Proof.
  intros Hall. unfold AutoTest.auto_test.
  rewrite (test_queries_answered _ _ Hall) by lia. reflexivity.
Qed.

Lemma test_queries_fails (done : list AutoTest.Row) (answers : list Json)
    (row : AutoTest.Row) (rest : list AutoTest.Row) :
  Forall2 answered done answers ->
  (exists e, post_json AutoTest.api_url (AutoTest.question row) = Raise e)
  \/ (exists response,
        post_json AutoTest.api_url (AutoTest.question row) = Ret response
        /\ dict_get "answer" response = None) ->
  forall len index log,
    (index + Z.of_nat (List.length (done ++ row :: rest)) = len)%Z ->
    exists e,
      test_queries len index (done ++ row :: rest)%list log
      = (Raise e,
         (log ++ flat_map (fun r => [post_of r; AutoTest.Sleep 5]) done
          ++ [post_of row])%list).
Proof.
  intros Hdone Hbad.
  induction Hdone as [|r a done answers (response & Hpost & Hanswer) _ IH];
    intros len index log Hlen; cbn [app AutoTest.test_queries].
  - destruct Hbad as [(e & ->)|(response & -> & ->)]; eexists; reflexivity.
  - rewrite Hpost, Hanswer.
    cbn [app List.length] in Hlen. rewrite length_app in Hlen.
    cbn [List.length] in Hlen.
    destruct (Z.ltb_spec index (len - 1)); [|lia].
    destruct (IH len (index + 1)%Z
                ((log ++ [post_of r]) ++ [AutoTest.Sleep 5])%list)
      as (e & ->).
    { rewrite length_app. cbn [List.length]. lia. }
    exists e. cbn [flat_map]. rewrite <- !app_assoc. reflexivity.
Qed.

(** X14.  When the API fails on a question, or answers it without an answer
    field (as it does for a request that failed), the batch tester stops
    there: the later questions are not posted and no results are written,
    the answers obtained so far being lost. *)
Theorem auto_test_stops (done : list AutoTest.Row) (answers : list Json)
    (row : AutoTest.Row) (rest : list AutoTest.Row) :
  Forall2 answered done answers ->
  (exists e, post_json AutoTest.api_url (AutoTest.question row) = Raise e)
  \/ (exists response,
        post_json AutoTest.api_url (AutoTest.question row) = Ret response
        /\ dict_get "answer" response = None) ->
  exists e,
    auto_test (done ++ row :: rest)%list
    = (Raise e,
       (flat_map (fun r => [post_of r; AutoTest.Sleep 5]) done
        ++ [post_of row])%list)
    /\ existsb AutoTest.is_to_csv (snd (auto_test (done ++ row :: rest)%list))
       = false.
Proof.
  intros Hdone Hbad. unfold AutoTest.auto_test.
  destruct (test_queries_fails done answers row rest Hdone Hbad
              (Z.of_nat (List.length (done ++ row :: rest))) 0%Z []
              eq_refl) as (e & ->).
  exists e. split; [reflexivity|]. cbn [snd app].
  clear. induction done as [|r done IH]; cbn; auto.
Qed.

End BatchFacts.

(* ================================================================== *)
(** ** The further properties on concrete collaborators *)

(** The price view asked for an unknown column and a misspelt one. *)
Lemma invalid_columns_rejected_witness :
  Scenario.invoke
    (view_ohlcv ["VCB"] None None None (Some ["open"; "price"; "vol"]))
  = (Rejected ("Cột không hợp lệ: price, vol. "
               ++ "Các cột có sẵn: time, open, high, low, close, volume"),
     []).
Proof.
  exact (proj1 (invalid_columns_rejected
                  Scenario.quote_history Scenario.to_json
                  "2026-11-04" "2026-10-05" ["VCB"] None None None
                  ["open"; "price"; "vol"] "price"
                  eq_refl (or_intror (or_introl eq_refl)) eq_refl)).
Defined.

(** The SMA tool asked for the periods 20, 9, -5 and 0. *)
Lemma first_nonpositive_period_reported_witness :
  Scenario.invoke
    (calculate_sma ["VCB"] None None None (PList [20; 9; -5; 0]%Z))
  = (Rejected "Chu kỳ SMA phải là số dương. Giá trị nhận được: -5", []).
Proof.
  apply (first_nonpositive_period_reported
           Scenario.quote_history Scenario.to_json "2026-11-04" "2026-10-05"
           Scenario.round_none_column ["VCB"] None None None
           [20; 9]%Z (-5)%Z [0]%Z).
  - reflexivity.
  - repeat constructor.
  - lia.
Defined.

(** The price view asked for volume and close on bars without volume. *)
Lemma ohlcv_selects_columns_witness :
  exists results,
    fst (ViewOHLCVTool_run Failing.quote_history Scenario.to_json
           "2026-11-04" "2026-10-05" ["HPG"] None None None
           (Some ["volume"; "close"]))
    = Mapping results
    /\ dict_get "HPG" results = Some (VStr "[2 records: time,close]").
Proof.
  destruct (ohlcv_selects_columns
              Failing.quote_history Scenario.company Scenario.company
              Scenario.company Scenario.to_json "2026-11-04" "2026-10-05"
              Scenario.ta_rsi Scenario.round_none_column
              ["HPG"] None None None ["volume"; "close"] "HPG"
              Failing.hpg_bars)
    as (results & df' & Hrun & Hsel & _ & _ & _ & Hget).
  - reflexivity.
  - discriminate.
  - reflexivity.
  - now left.
  - reflexivity.
  - reflexivity.
  - discriminate.
  - exists results. split; [exact Hrun|].
    vm_compute in Hsel. injection Hsel as <-. exact Hget.
Defined.

(** The SMA loop asked for the periods 3, 2 and 3 again. *)
Lemma sma_keeps_fetched_columns_witness :
  exists df',
    add_sma_columns Scenario.round_none_column [3; 2; 3]%Z Scenario.vcb_bars
    = Ret df'
    /\ keys (columns df')
       = ["time"; "open"; "high"; "low"; "close"; "volume"; "SMA_3"; "SMA_2"].
Proof.
  destruct (sma_keeps_fetched_columns Scenario.round_none_column
              [93 # 1; 95 # 1; 96 # 1] [3; 2; 3]%Z Scenario.vcb_bars)
    as (df' & Hrun & Hkeys & _).
  - repeat constructor; cbn; lia.
  - reflexivity.
  - exists df'. split; [exact Hrun | exact Hkeys].
Defined.

(** The RSI tool on [VCB], whose three closes rise, with the period 2: the
    first two rows have no value and the third has 100.00. *)
Lemma rsi_column_witness :
  exists results df',
    fst (Scenario.invoke (calculate_rsi ["VCB"] None None None 2%Z))
    = Mapping results
    /\ dict_get "VCB" results
       = Some (VStr "[3 records: time,open,high,low,close,volume,RSI_2]")
    /\ dict_get "RSI_2" (columns df')
       = Some [None; None; Some (10000 # 100)]
    /\ dict_get "close" (columns df')
       = Some [Some (93 # 1); Some (95 # 1); Some (96 # 1)].
Proof.
  destruct (rsi_column
              Scenario.quote_history Scenario.company Scenario.company
              Scenario.company Scenario.to_json "2026-11-04" "2026-10-05"
              Scenario.ta_rsi Scenario.round_none_column
              ["VCB"] None None None 2%Z "VCB" Scenario.vcb_bars
              [Some (93 # 1); Some (95 # 1); Some (96 # 1)]
              [None; None; Some (12800 # 128)])
    as (results & df' & Hrun & Hget & Hlen & Hcol & Hother & Hkeys).
  - reflexivity.
  - lia.
  - now left.
  - reflexivity.
  - reflexivity.
  - reflexivity.
  - reflexivity.
  - exists results, df'. split; [exact Hrun|]. split; [|split].
    + unfold Scenario.to_json in Hget. rewrite Hlen, Hkeys in Hget.
      exact Hget.
    + exact Hcol.
    + rewrite Hother by discriminate. reflexivity.
Defined.

(** The response to the question about officers and subsidiaries. *)
Lemma response_reports_classification_witness :
  exists c,
    Scenario.classifier_chain Scenario.complex_query = Ret c
    /\ is_complex c = true
    /\ reasoning c = "Cần 2 công cụ khác nhau".
Proof.
  destruct (response_reports_classification
              Scenario.classifier_chain Scenario.decompose_complex_query
              Scenario.agent Scenario.combine_chain Scenario.json_loads
              Scenario.Table Scenario.pd_DataFrame Scenario.time_to_datetime
              Scenario.to_string Scenario.complex_query []
              (snd (Scenario.process_query Scenario.complex_query []))
              (mkResponse
                 ("Tổng hợp: "
                  ++ result_blocks 1
                       [str_of (Scenario.narrated Scenario.officers_query);
                        str_of (Scenario.narrated Scenario.subsidiaries_query)])
                 true "Cần 2 công cụ khác nhau")
              eq_refl)
    as (c & Hc & Hflag & Hreason & _).
  exists c. split; [exact Hc|]. split; symmetry; assumption.
Defined.

(** The question about officers alone. *)
Lemma simple_path_calls_witness :
  Scenario.process_query Scenario.officers_query []
  = (Ret (mkResponse ("Trả lời: " ++ Scenario.officers_query) false
            "Chỉ cần 1 công cụ"),
     [Classify Scenario.officers_query; AgentInvoke Scenario.officers_query]).
Proof.
  destruct (simple_path_calls
              Scenario.classifier_chain Scenario.decompose_complex_query
              Scenario.agent Scenario.combine_chain Scenario.json_loads
              Scenario.Table Scenario.pd_DataFrame Scenario.time_to_datetime
              Scenario.to_string Scenario.officers_query
              (mkClassification false "Chỉ cần 1 công cụ") []
              eq_refl eq_refl)
    as (Hlog & Hanswer & _).
  unfold Scenario.process_query.
  rewrite (surjective_pairing (Orchestrator.process_query _ _ _ _ _ _ _ _ _ _ _)).
  rewrite Hlog, (Hanswer _ _ eq_refl eq_refl). reflexivity.
Defined.

(** The agent times out on the second sub-query. *)
Lemma failed_sub_query_aborts_witness :
  Orchestrator.process_query Scenario.classifier_chain
    Scenario.decompose_complex_query Failing.agent Scenario.combine_chain
    Scenario.json_loads Scenario.Table Scenario.pd_DataFrame
    Scenario.time_to_datetime Scenario.to_string Scenario.complex_query []
  = (Raise "Error processing query: TimeoutError",
     [ Classify Scenario.complex_query;
       Decompose Scenario.complex_query;
       AgentInvoke Scenario.officers_query;
       AgentInvoke Scenario.subsidiaries_query ]).
Proof.
  assert (Hdone :
            Forall2 (fun q r => Failing.agent q = Ret r)
              [Scenario.officers_query]
              [Scenario.narrated Scenario.officers_query]).
  { repeat constructor. }
  exact (failed_sub_query_aborts
           Scenario.classifier_chain Scenario.decompose_complex_query
           Failing.agent Scenario.combine_chain Scenario.json_loads
           Scenario.Table Scenario.pd_DataFrame Scenario.time_to_datetime
           Scenario.to_string Scenario.complex_query
           (mkClassification true "Cần 2 công cụ khác nhau")
           [Scenario.officers_query]
           [Scenario.narrated Scenario.officers_query]
           Scenario.subsidiaries_query "TimeoutError" []
           eq_refl eq_refl eq_refl Hdone eq_refl).
Defined.

(** The classifier's output cannot be parsed. *)
Lemma planning_failure_is_fatal_witness :
  fst (Orchestrator.process_query Failing.classifier_chain
         Scenario.decompose_complex_query Scenario.agent
         Scenario.combine_chain Scenario.json_loads Scenario.Table
         Scenario.pd_DataFrame Scenario.time_to_datetime Scenario.to_string
         Scenario.price_query [])
  = Raise ("Error processing query: "
           ++ "Failed to parse QueryClassification from completion").
Proof.
  exact (proj1 (planning_failure_is_fatal
                  Failing.classifier_chain Scenario.decompose_complex_query
                  Scenario.agent Scenario.combine_chain Scenario.json_loads
                  Scenario.Table Scenario.pd_DataFrame
                  Scenario.time_to_datetime Scenario.to_string
                  Scenario.price_query
                  "Failed to parse QueryClassification from completion"
                  (or_introl eq_refl))).
Defined.

(** A price answer for [VCB] and a symbol without data. *)
Lemma undecodable_entry_degrades_witness :
  Orchestrator.extract_answer Failing.json_loads Scenario.Table
    Scenario.pd_DataFrame Scenario.time_to_datetime Scenario.to_string
    Failing.mixed_result
  = Ret "{'messages': [HumanMessage(...), AIMessage(...), ToolMessage(...)]}".
Proof.
  apply (undecodable_entry_degrades
           Failing.json_loads Scenario.Table Scenario.pd_DataFrame
           Scenario.time_to_datetime Scenario.to_string Failing.mixed_result
           Failing.mixed_payload
           [("VCB", JStr Scenario.vcb_records);
            ("ZZZZ", JStr Failing.no_data_text)]).
  - reflexivity.
  - reflexivity.
  - reflexivity.
  - apply Exists_cons_tl, Exists_cons_hd.
    exists "Expecting value: line 1 column 1 (char 0)". reflexivity.
Defined.

(** The price answer for [VCB]. *)
Lemma rows_are_flattened_witness :
  Orchestrator.table_answer Scenario.json_loads Scenario.Table
    Scenario.pd_DataFrame Scenario.time_to_datetime Scenario.to_string
    Scenario.price_result
  = Ret "table of 1 rows".
Proof.
  assert (Hdec :
            Forall2 (decodes_to Scenario.json_loads)
              [("VCB", JStr Scenario.vcb_records)]
              [("VCB", [[("time", JNum (1730678400000 # 1));
                         ("close", JNum (93 # 1))]])]).
  { repeat constructor. exists Scenario.vcb_records. split; reflexivity. }
  exact (proj1 (rows_are_flattened
                  Scenario.json_loads Scenario.Table Scenario.pd_DataFrame
                  Scenario.time_to_datetime Scenario.to_string
                  Scenario.price_result Scenario.vcb_payload
                  [("VCB", JStr Scenario.vcb_records)]
                  [("VCB", [[("time", JNum (1730678400000 # 1));
                             ("close", JNum (93 # 1))]])]
                  eq_refl eq_refl Hdec)).
Defined.

(** A template of two questions the API answers. *)
Lemma auto_test_run_witness :
  AutoTest.auto_test Failing.post_json
    [AutoTest.mkRow "q1" "e1" None; AutoTest.mkRow "q2" "e2" None]
  = (Ret tt,
     [ AutoTest.Post AutoTest.api_url "q1";
       AutoTest.Sleep 5;
       AutoTest.Post AutoTest.api_url "q2";
       AutoTest.ToCsv "assets/test_results.csv"
         [AutoTest.mkRow "q1" "e1" (Some (JStr "a1"));
          AutoTest.mkRow "q2" "e2" (Some (JStr "a2"))] ]).
Proof.
  apply (auto_test_run Failing.post_json
           [AutoTest.mkRow "q1" "e1" None; AutoTest.mkRow "q2" "e2" None]
           [JStr "a1"; JStr "a2"]).
  repeat constructor; eexists; split; reflexivity.
Defined.

(** A template whose second question the API cannot answer. *)
Lemma auto_test_stops_witness :
  exists e,
    AutoTest.auto_test Failing.post_json
      [AutoTest.mkRow "q1" "e1" None; AutoTest.mkRow "q3" "e3" None;
       AutoTest.mkRow "q2" "e2" None]
    = (Raise e,
       [ AutoTest.Post AutoTest.api_url "q1";
         AutoTest.Sleep 5;
         AutoTest.Post AutoTest.api_url "q3" ]).
Proof.
  destruct (auto_test_stops Failing.post_json
              [AutoTest.mkRow "q1" "e1" None] [JStr "a1"]
              (AutoTest.mkRow "q3" "e3" None)
              [AutoTest.mkRow "q2" "e2" None])
    as (e & Hrun & _).
  - repeat constructor. eexists. split; reflexivity.
  - right. eexists. split; reflexivity.
  - exists e. exact Hrun.
Defined.
